(** * The module base of polybar: action routing, output cache and the
      template renderer of [include/modules/meta/base.inl].

    The file embeds [action_router<Impl>] and the members of [module<Impl>]
    that decide the behaviour of a module as seen by the bar: [stop],
    [contents], [input], [broadcast] and [get_output].  Every member is a
    computation over the module's fields that also records, in order, the
    calls it makes to its collaborators (logger, signal emitter, mutexes,
    builder, and the hooks of the implementing class). *)

From Stdlib Require Import String Ascii List Arith Lia Bool.
From stdpp Require Import gmap strings.
Import ListNotations.

Local Open Scope string_scope.
Local Open Scope list_scope.

(** ** [std::string] operations used by the source *)

Module Str.

(** [s.empty()] *)
Definition empty (s : string) : bool :=
  match s with EmptyString => true | String _ _ => false end.

(** [s.find(c, pos)]: the first index [i >= pos] with [s[i] == c];
    [None] stands for [string::npos]. *)
Fixpoint find (c : ascii) (pos : nat) (s : string) : option nat :=
  match s with
  | EmptyString => None
  | String a s' =>
      match pos with
      | O => if Ascii.eqb a c then Some 0 else option_map S (find c 0 s')
      | S p => option_map S (find c p s')
      end
  end.

(** [s.substr(0, n)]: at most [n] leading characters. *)
Fixpoint take (n : nat) (s : string) : string :=
  match n, s with
  | S n', String a s' => String a (take n' s')
  | _, _ => EmptyString
  end.

(** [s.erase(0, n)]: [s] without its first [n] characters (all of them
    when [s] is shorter). *)
Fixpoint erase (n : nat) (s : string) : string :=
  match n, s with
  | S n', String _ s' => erase n' s'
  | _, _ => s
  end.

(** [s.substr(pos, n)]; the source only calls it with [pos <= s.size()],
    where it does not throw. *)
Definition substr (pos n : nat) (s : string) : string :=
  take n (erase pos s).

(** [s[0]] and [s[s.size() - 1]] of a string; [None] on the empty string,
    where the source does not read them. *)
Definition front (s : string) : option ascii :=
  match s with EmptyString => None | String a _ => Some a end.

Fixpoint back (s : string) : option ascii :=
  match s with
  | EmptyString => None
  | String a EmptyString => Some a
  | String _ s' => back s'
  end.

Definition is_char (c : ascii) (o : option ascii) : bool :=
  match o with Some a => Ascii.eqb a c | None => false end.

(** [string(n, ' ')] *)
Fixpoint spaces (n : nat) : string :=
  match n with O => EmptyString | S n' => String " "%char (spaces n') end.

(** Modelled from the spec: [string_util::ltrim(s, ' ')] of
    utils/string.hpp lives outside base.inl; by §4.4 step 2 it strips the
    leading space characters of the literal text. *)
Fixpoint ltrim (s : string) : string :=
  match s with
  | String a s' => if Ascii.eqb a " "%char then ltrim s' else s
  | EmptyString => EmptyString
  end.

(** [s] holds nothing but spaces. *)
Fixpoint all_spaces (s : string) : bool :=
  match s with
  | EmptyString => true
  | String a s' => Ascii.eqb a " "%char && all_spaces s'
  end.


(** [c] occurs nowhere in [s]. *)
Fixpoint lacks (c : ascii) (s : string) : bool :=
  match s with
  | EmptyString => true
  | String a s' => negb (Ascii.eqb a c) && lacks c s'
  end.

End Str.

(** ** The builder *)

Module Builder.

(** Modelled from the spec: the builder of components/builder.hpp lives
    outside base.inl.  §6 gives its operations, [node], [space], [control],
    [append], [remove_trailing_space] and [flush]; its state is the markup
    accumulated so far. *)
Definition t : Type := string.

(** Modelled from the spec: [builder::node], which §4.4 step 2 uses to emit
    literal text. *)
Definition node (text : string) (b : t) : t := b +:+ text.

(** Modelled from the spec: [builder::append], which §4.4 step 1 uses to
    append the trailing literal text verbatim. *)
Definition append (text : string) (b : t) : t := b +:+ text.

(** Modelled from the spec: [builder::space]; §4.4 step 3 has it insert a
    spacer of the given width, and §8 fixes the gap to exactly that width. *)
Definition space (n : nat) (b : t) : t := b +:+ Str.spaces n.

(** Modelled from the spec: [builder::remove_trailing_space]; by §4.4
    step 5 trailing blank padding is removed "down to the configured
    minimum gap": of the spaces that end the content, at most [min_gap]
    stay. *)
Fixpoint remove_trailing_space (min_gap : nat) (b : t) : t :=
  match b with
  | EmptyString => EmptyString
  | String a b' =>
      if Str.all_spaces (String a b')
      then Str.spaces (Nat.min min_gap (S (String.length b')))
      else String a (remove_trailing_space min_gap b')
  end.

(** Modelled from the spec: [builder::flush]; by §6 it "must return
    accumulated content and reset internal state". *)
Definition flush (b : t) : string * t := (b, EmptyString).

(** Modelled from the spec: [builder::control]; §4.4 has it append the
    marker of a control tag, whose text is the builder's business and is
    passed in. *)
Definition control (marker : string) (b : t) : t := b +:+ marker.

End Builder.

(** ** Collaborators seen through the calls made to them *)

Inductive loglevel : Type := Trace | Info | Notice | Err.

(** [signals::eventqueue::check_state] and [notify_change] *)
Inductive signal : Type := check_state | notify_change.

Inductive mutex : Type := m_buildlock | m_updatelock.

(** [tags::controltag::R], the only control tag the source emits. *)
Inductive controltag : Type := R.

(** The members of the implementing class that the base calls through
    [CAST_MOD(Impl)] and [CONST_MOD(Impl)]. *)
Inductive hook : Type := Wakeup | Teardown | GetOutput | GetFormat.

(** The types an implementing class [Impl] brings: its own fields and the
    member functions it can register as actions ([callback] points to a
    [void (Impl::* )()], [callback_data] to a
    [void (Impl::* )(const std::string&)]). *)
Class ImplTypes : Type := {
  impl_state : Type;
  callback : Type;
  callback_data : Type
}.

(** Modelled from the spec: the markup a control tag stands for is fixed by
    the builder of components/builder.hpp, outside base.inl; §4.4 only calls
    it a "reset" control marker. *)
Class Markup : Type := { control_markup : controltag -> string }.

Section Model.

Context {T : ImplTypes}.

(** One observable call.  A member's trace lists, in program order, the
    calls it makes on the logger, the signal emitter, the mutexes, the
    builder and the implementing class. *)
Inductive event : Type :=
| EvLog (lvl : loglevel) (msg : string)
| EvEmit (sig : signal)
| EvLock (locks : list mutex)
| EvUnlock (lock : mutex)
| EvNotifyAll
| EvCall (h : hook)
| EvMember (f : callback)
| EvMemberData (f : callback_data) (data : string)
| EvNode (text : string)
| EvSpace (n : nat)
| EvRemoveTrailingSpace (n : nat)
| EvAppend (text : string)
| EvControl (c : controltag)
| EvFlush
| EvBuild (tag : string) (ok : bool)
| EvDecorate (content : string).

(** [module_format]: the template, the spacing between tags (a [size_t],
    on which the source performs no arithmetic but [std::max]) and the
    decoration step, which belongs to the formatter and is kept abstract. *)
Record format : Type := {
  value : string;
  spacing : nat;
  decorate : Builder.t -> string -> Builder.t * string
}.

(** [action_router<Impl>::entry]: a union of the two member-function
    pointers, discriminated by [with_data]. *)
Inductive entry : Type :=
| entry_without (without : callback)
| entry_with (with_ : callback_data).

Definition with_data (e : entry) : bool :=
  match e with entry_without _ => false | entry_with _ => true end.

(** [action_router<Impl>]: the table [callbacks]. *)
Record action_router : Type := { callbacks : gmap string entry }.

(** The fields of [module<Impl>] that the embedded members read or write. *)
Record module : Type := {
  m_name : string;
  m_enabled : bool;
  m_changed : bool;
  m_cache : string;
  m_builder : Builder.t;
  m_formatter : string -> format;
  m_router : action_router;
  m_impl : impl_state
}.

Definition set_enabled (v : bool) (m : module) : module :=
  {| m_name := m_name m; m_enabled := v; m_changed := m_changed m;
     m_cache := m_cache m; m_builder := m_builder m;
     m_formatter := m_formatter m; m_router := m_router m;
     m_impl := m_impl m |}.

Definition set_changed (v : bool) (m : module) : module :=
  {| m_name := m_name m; m_enabled := m_enabled m; m_changed := v;
     m_cache := m_cache m; m_builder := m_builder m;
     m_formatter := m_formatter m; m_router := m_router m;
     m_impl := m_impl m |}.

Definition set_cache (v : string) (m : module) : module :=
  {| m_name := m_name m; m_enabled := m_enabled m; m_changed := m_changed m;
     m_cache := v; m_builder := m_builder m;
     m_formatter := m_formatter m; m_router := m_router m;
     m_impl := m_impl m |}.

Definition set_builder (v : Builder.t) (m : module) : module :=
  {| m_name := m_name m; m_enabled := m_enabled m; m_changed := m_changed m;
     m_cache := m_cache m; m_builder := v;
     m_formatter := m_formatter m; m_router := m_router m;
     m_impl := m_impl m |}.

(** ** Computations: state passing with a trace of calls *)

Definition M (A : Type) : Type := module -> A * module * list event.

Definition ret {A : Type} (a : A) : M A := fun m => (a, m, []).

Definition bind {A B : Type} (f : A -> M B) (x : M A) : M B :=
  fun m =>
    let '(a, m1, e1) := x m in
    let '(b, m2, e2) := f a m1 in
    (b, m2, e1 ++ e2).

#[global] Instance M_ret : MRet M := @ret.
#[global] Instance M_bind : MBind M := @bind.

Definition get : M module := fun m => (m, m, []).
Definition modify (f : module -> module) : M unit := fun m => (tt, f m, []).
Definition emit (e : event) : M unit := fun m => (tt, m, [e]).

Definition result {A : Type} (r : A * module * list event) : A := fst (fst r).
Definition state {A : Type} (r : A * module * list event) : module := snd (fst r).
Definition trace {A : Type} (r : A * module * list event) : list event := snd r.

End Model.


(** ** The implementing class *)

(** What [module<Impl>] asks of [Impl].  [impl_get_output] is [Some] when
    [Impl] declares a [get_output] of its own, which then hides the one of
    the base in [CAST_MOD(Impl)->get_output()]. *)
Class ModuleImpl (T : ImplTypes) : Type := {
  impl_get_format : module -> string;
  impl_build : module -> Builder.t -> string -> Builder.t * bool;
  impl_get_output : option (M string);
  impl_wakeup : M unit;
  impl_teardown : M unit;
  call_member : callback -> M unit;
  call_member_data : callback_data -> string -> M unit
}.

(** What a call that may hit an [assert] comes to. *)
Inductive outcome (A : Type) : Type :=
| Returned (r : A)
| AssertionFailed.
Arguments Returned {A} r.
Arguments AssertionFailed {A}.

Section Members.

Context {T : ImplTypes} {I : ModuleImpl T} {K : Markup}.

(** *** Calls on the builder held in [m_builder] *)

Definition builder_node (text : string) : M unit :=
  emit (EvNode text);;
  modify (fun m => set_builder (Builder.node text (m_builder m)) m).

Definition builder_space (n : nat) : M unit :=
  emit (EvSpace n);;
  modify (fun m => set_builder (Builder.space n (m_builder m)) m).

Definition builder_remove_trailing_space (n : nat) : M unit :=
  emit (EvRemoveTrailingSpace n);;
  modify (fun m => set_builder (Builder.remove_trailing_space n (m_builder m)) m).

Definition builder_append (text : string) : M unit :=
  emit (EvAppend text);;
  modify (fun m => set_builder (Builder.append text (m_builder m)) m).

Definition builder_control (c : controltag) : M unit :=
  emit (EvControl c);;
  modify (fun m => set_builder (Builder.control (control_markup c) (m_builder m)) m).

Definition builder_flush : M string :=
  emit EvFlush;;
  m ← get;
  modify (set_builder (snd (Builder.flush (m_builder m))));;
  ret (fst (Builder.flush (m_builder m))).

(** [CONST_MOD(Impl).build(m_builder.get(), tag)] *)
Definition build (tag : string) : M bool :=
  m ← get;
  let r := impl_build m (m_builder m) tag in
  modify (set_builder (fst r));;
  emit (EvBuild tag (snd r));;
  ret (snd r).

(** *** [action_router<Impl>] *)

Definition register_action (name : string) (func : callback)
    (r : action_router) : action_router :=
  {| callbacks := <[name := entry_without func]> (callbacks r) |}.

Definition register_action_with_data (name : string) (func : callback_data)
    (r : action_router) : action_router :=
  {| callbacks := <[name := entry_with func]> (callbacks r) |}.

Definition has_action (name : string) (r : action_router) : bool :=
  match callbacks r !! name with Some _ => true | None => false end.

(** [invoke]: the router calls the member on [*m_this], the module that
    owns it. *)
Definition invoke (name data : string) (r : action_router)
    : module -> outcome (unit * module * list event) :=
  fun m =>
    match callbacks r !! name with
    | None => AssertionFailed
    | Some e =>
        let has_data := negb (Str.empty data) in
        Returned
          (((if has_data && negb (with_data e)
             then ret tt (* TODO print error message *)
             else ret tt);;
            match e with
            | entry_with f => emit (EvMemberData f data);; call_member_data f data
            | entry_without f => emit (EvMember f);; call_member f
            end) m)
    end.

(** *** [module<Impl>], public members *)

Definition name : M string := m ← get; ret (m_name m).

Definition running : M bool := m ← get; ret (m_enabled m).

Definition stop : M unit :=
  m ← get;
  if negb (m_enabled m) then ret tt
  else
    emit (EvLog Info (m_name m +:+ ": Stopping"));;
    modify (set_enabled false);;
    emit (EvLock [m_buildlock; m_updatelock]);;
    (emit (EvCall Wakeup);; impl_wakeup);;
    (emit (EvCall Teardown);; impl_teardown);;
    emit (EvEmit check_state);;
    emit (EvUnlock m_updatelock);;
    emit (EvUnlock m_buildlock).

Definition halt (error_message : string) : M unit :=
  m ← get;
  emit (EvLog Err (m_name m +:+ ": " +:+ error_message));;
  emit (EvLog Notice ("Stopping '" +:+ m_name m +:+ "'..."));;
  stop.

(** The default [teardown] of the base. *)
Definition teardown : M unit := ret tt.

Definition broadcast : M unit :=
  modify (set_changed true);;
  emit (EvEmit notify_change).

(** The default [wakeup] of the base. *)
Definition wakeup : M unit :=
  m ← get;
  emit (EvLog Trace (m_name m +:+ ": Release sleep lock"));;
  emit EvNotifyAll.

Definition input (name data : string)
    : module -> outcome (bool * module * list event) :=
  fun m =>
    if negb (has_action name (m_router m)) then Returned (false, m, [])
    else
      match invoke name data (m_router m) m with
      | Returned r => Returned (true, state r, trace r)
      | AssertionFailed => AssertionFailed
      end.

(** *** [module<Impl>::get_output] *)

(** The local variables of [get_output] that live across iterations
    ([value'] is the local [value], the not yet consumed template). *)
Record locals : Type := {
  no_tag_built : bool;
  fake_no_tag_built : bool;
  tag_built : bool;
  value' : string
}.

Definition set_no_tag_built (v : bool) (l : locals) : locals :=
  {| no_tag_built := v; fake_no_tag_built := fake_no_tag_built l;
     tag_built := tag_built l; value' := value' l |}.

Definition set_fake_no_tag_built (v : bool) (l : locals) : locals :=
  {| no_tag_built := no_tag_built l; fake_no_tag_built := v;
     tag_built := tag_built l; value' := value' l |}.

Definition set_tag_built (v : bool) (l : locals) : locals :=
  {| no_tag_built := no_tag_built l; fake_no_tag_built := fake_no_tag_built l;
     tag_built := v; value' := value' l |}.

Definition set_value (v : string) (l : locals) : locals :=
  {| no_tag_built := no_tag_built l; fake_no_tag_built := fake_no_tag_built l;
     tag_built := tag_built l; value' := v |}.

(** The body of [if (start > 0)] up to [value.erase(0, start)]: the
    literal text before the tag. *)
Definition render_literal (start : nat) (l : locals) : M locals :=
  l1 ← (if no_tag_built l then
          let trimmed := Str.ltrim (Str.substr 0 start (value' l)) in
          if negb (Str.empty trimmed) then
            builder_node trimmed;;
            ret (set_fake_no_tag_built false l)
          else ret l
        else
          builder_node (Str.substr 0 start (value' l));;
          ret l);
  ret (set_value (Str.erase start (value' l1)) l1).

(** The branch [tag[0] == '<' && tag[tag.size() - 1] == '>']. *)
Definition render_tag (fmt : format) (mingap : nat) (tag : string)
    (l : locals) : M locals :=
  l1 ← (if negb (no_tag_built l) then
          builder_space (spacing fmt);; ret l
        else if fake_no_tag_built l then ret (set_no_tag_built false l)
        else ret l);
  ok ← build tag;
  let l2 := set_tag_built ok l1 in
  (if negb (tag_built l2) && negb (no_tag_built l2)
   then builder_remove_trailing_space mingap
   else ret tt);;
  ret (if tag_built l2 then set_no_tag_built false l2 else l2).

(** The [while] loop.  [fuel] bounds the number of times the condition is
    evaluated; [None] says the bound was hit before the loop was left. *)
Fixpoint render_loop (fuel : nat) (fmt : format) (mingap : nat)
    (l : locals) : M (option locals) :=
  match fuel with
  | O => ret None
  | S fuel' =>
      match Str.find "<" 0 (value' l) with
      | None => ret (Some l)
      | Some start =>
          match Str.find ">" start (value' l) with
          | None => ret (Some l)
          | Some end_ =>
              p ← (if Nat.ltb 0 start then
                     l1 ← render_literal start l;
                     ret (l1, 0, end_ - start)
                   else ret (l, start, end_));
              let '(l1, start1, end1) := p in
              let tag := Str.substr start1 (end1 + 1) (value' l1) in
              if Str.empty tag then render_loop fuel' fmt mingap l1
              else
                l2 ← (if Str.is_char "<" (Str.front tag)
                         && Str.is_char ">" (Str.back tag)
                      then render_tag fmt mingap tag l1
                      else ret l1);
                render_loop fuel' fmt mingap
                  (set_value (Str.erase (String.length tag) (value' l2)) l2)
          end
      end
  end.

(** Every iteration erases a tag of two characters at least, so the loop
    of a template [v] is left before its condition has been evaluated
    [S (length v)] times ([render_loop_finishes] below). *)
Definition render_fuel (v : string) : nat := S (String.length v).

Definition get_output : M string :=
  emit (EvLock [m_buildlock]);;
  m ← get;
  emit (EvCall GetFormat);;
  let format_name := impl_get_format m in
  let fmt := m_formatter m format_name in
  let mingap := Nat.max 1 (spacing fmt) in
  r ← render_loop (render_fuel (value fmt)) fmt mingap
        {| no_tag_built := true; fake_no_tag_built := false;
           tag_built := false; value' := value fmt |};
  match r with
  | Some l =>
      (if negb (Str.empty (value' l)) then builder_append (value' l)
       else ret tt);;
      content ← builder_flush;
      emit (EvDecorate content);;
      m1 ← get;
      let d := decorate fmt (m_builder m1) content in
      modify (set_builder (fst d));;
      emit (EvUnlock m_buildlock);;
      ret (snd d)
  | None => ret EmptyString (* never reached: [get_output_run] *)
  end.

(** [CAST_MOD(Impl)->get_output()] *)
Definition cast_get_output : M string :=
  emit (EvCall GetOutput);;
  match impl_get_output with
  | Some own => own
  | None => get_output
  end.

(** *** [module<Impl>::contents] *)

Definition contents : M string :=
  m ← get;
  (if m_changed m then
     emit (EvLog Info (m_name m +:+ ": Rebuilding cache"));;
     out ← cast_get_output;
     modify (set_cache out);;
     builder_flush;;
     m1 ← get;
     (if negb (Str.empty (m_cache m1)) then
        builder_control R;;
        s ← builder_flush;
        modify (fun m2 => set_cache (m_cache m2 +:+ s) m2)
      else ret tt);;
     modify (set_changed false)
   else ret tt);;
  m3 ← get;
  ret (m_cache m3).

End Members.

(** ** Vocabulary for the properties of a render *)

Section Steps.

Context {T : ImplTypes} {I : ModuleImpl T} {K : Markup}.
Variables (fmt : format) (mingap : nat).

(** The builder after the spacer that precedes a tag, if one is due. *)
Definition spaced (ntb : bool) (m : module) : module :=
  if ntb then m else set_builder (Builder.space (spacing fmt) (m_builder m)) m.

(** What the literal text before a tag leaves behind. *)
Definition after_literal (start : nat) (l : locals) (m : module)
    : locals * module * list event :=
  if Nat.ltb 0 start then render_literal start l m else (l, m, []).

(** The condition of the [while]: where the next tag starts and ends. *)
Definition next_span (v : string) : option (nat * nat) :=
  match Str.find "<" 0 v with
  | None => None
  | Some start =>
      match Str.find ">" start v with
      | None => None
      | Some end_ => Some (start, end_)
      end
  end.

(** The locals with which the next turn of the loop starts. *)
Definition next_locals (start end_ : nat) (l : locals) (m : module) : locals :=
  let r1 := after_literal start l m in
  let tag := Str.take (end_ - start + 1) (Str.erase start (value' l)) in
  let r2 := render_tag fmt mingap tag (result r1) (state r1) in
  set_value (Str.erase (String.length tag) (value' (result r2))) (result r2).

(** The format chosen for a render, the locals the loop starts with, and
    the run of the loop inside [get_output]. *)
Definition selected_format (m : module) : format :=
  m_formatter m (impl_get_format m).

Definition initial_locals (fmt : format) : locals :=
  {| no_tag_built := true; fake_no_tag_built := false;
     tag_built := false; value' := value fmt |}.

Definition loop_run (m : module) : option locals * module * list event :=
  let fmt := selected_format m in
  render_loop (render_fuel (value fmt)) fmt (Nat.max 1 (spacing fmt))
    (initial_locals fmt) m.

(** What [contents] caches for the output [out] of a render. *)
Definition cached (out : string) : string :=
  if Str.empty out then out else out +:+ control_markup R.

(** The member an entry stands for, called on the module. *)
Definition dispatch (e : entry) (data : string) : M unit :=
  match e with
  | entry_with f => emit (EvMemberData f data);; call_member_data f data
  | entry_without f => emit (EvMember f);; call_member f
  end.

End Steps.

Section Shape.

Context {T : ImplTypes}.

Definition is_build (e : event) : bool :=
  match e with EvBuild _ _ => true | _ => false end.

(** A tag that built has been seen in [l]. *)
Definition has_built (l : list event) : bool :=
  existsb (fun e => match e with EvBuild _ true => true | _ => false end) l.

Definition no_build (l : list event) : Prop :=
  Forall (fun e => is_build e = false) l.

(** The calls around one tag: the literal text before it, the spacer, the
    tag, and the removal of the spacer. *)
Definition literal_events (lit : list event) : Prop :=
  lit = [] \/ exists text, lit = [EvNode text].

Definition spacer (s : nat) (ntb : bool) : list event :=
  if ntb then [] else [EvSpace s].

Definition remover (g : nat) (ntb ok : bool) : list event :=
  if negb ok && negb ntb then [EvRemoveTrailingSpace g] else [].

(** [render_trace s g ntb evs]: [evs] is what the loop, entered with
    [no_tag_built = ntb], and the code after it can leave in the trace for
    a format of spacing [s] and a minimum gap [g]. *)
Inductive render_trace (s g : nat) : bool -> list event -> Prop :=
| rt_left ntb tl :
    no_build tl -> render_trace s g ntb tl
| rt_span ntb lit tag ok evs :
    literal_events lit ->
    render_trace s g (ntb && negb ok) evs ->
    render_trace s g ntb
      (lit ++ spacer s ntb ++ EvBuild tag ok :: remover g ntb ok ++ evs).

(** The content handed to the decoration step. *)
Definition decorated (evs : list event) : list string :=
  flat_map (fun e => match e with EvDecorate c => [c] | _ => [] end) evs.

End Shape.

(** ** A concrete implementing class

    [label_module] is a module whose data is a table from tags to the text
    they build: [build] appends the text of a tag it knows and reports
    failure, leaving the builder as it is, for any other tag.  Its actions
    are numbered member functions that all [broadcast]. *)

#[global] Instance label_types : ImplTypes := {|
  impl_state := string -> option string;
  callback := nat;
  callback_data := nat
|}.

#[global] Instance label_module : ModuleImpl label_types := {|
  impl_get_format := fun _ => "format";
  impl_build := fun m b tag =>
    match m_impl m tag with
    | Some text => (b +:+ text, true)
    | None => (b, false)
    end;
  impl_get_output := None;
  impl_wakeup := wakeup;
  impl_teardown := teardown;
  call_member := fun _ => broadcast;
  call_member_data := fun _ _ => broadcast
|}.

#[global] Instance label_markup : Markup := {|
  control_markup := fun _ => "%{PR}"
|}.

Definition plain_format (template : string) (s : nat) : format :=
  {| value := template; spacing := s; decorate := fun b content => (b, content) |}.

(** A running module with a fresh cache, one format for every name, and
    the given actions and tag texts. *)
Definition label_state (template : string) (s : nat)
    (actions : gmap string entry) (texts : string -> option string) : module :=
  {| m_name := "module/label"; m_enabled := true; m_changed := true;
     m_cache := ""; m_builder := "";
     m_formatter := fun _ => plain_format template s;
     m_router := {| callbacks := actions |};
     m_impl := texts |}.

Definition texts_of (l : list (string * string)) (tag : string) : option string :=
  snd <$> List.find (fun p => String.eqb (fst p) tag) l.

(** The calls with which every trace of [get_output] opens and closes. *)
Definition locked : list (@event label_types) :=
  [EvLock [m_buildlock]; EvCall GetFormat].

Definition unlocked (content : string) : list (@event label_types) :=
  [EvFlush; EvDecorate content; EvUnlock m_buildlock].

(** ** Vocabulary for further properties *)

Section Further.

Context {T : ImplTypes} {I : ModuleImpl T} {K : Markup}.

Definition set_router (v : action_router) (m : module) : module :=
  {| m_name := m_name m; m_enabled := m_enabled m; m_changed := m_changed m;
     m_cache := m_cache m; m_builder := m_builder m;
     m_formatter := m_formatter m; m_router := v;
     m_impl := m_impl m |}.

(** The tag spans of a template, as the condition of the [while] finds them
    one after the other; [fuel] bounds their number. *)
Fixpoint spans (fuel : nat) (v : string) : list string :=
  match fuel with
  | O => []
  | S fuel' =>
      match next_span v with
      | None => []
      | Some (start, end_) =>
          Str.take (end_ - start + 1) (Str.erase start v)
            :: spans fuel' (Str.erase (S end_) v)
      end
  end.

Definition tags (v : string) : list string := spans (render_fuel v) v.

(** The tags handed to [build], in the order of the calls. *)
Definition built_tags (evs : list event) : list string :=
  flat_map (fun e => match e with EvBuild tag _ => [tag] | _ => [] end) evs.

(** Up to the first tag that builds, every literal text handed to [node]
    is non-empty and does not start with a space. *)
Fixpoint trimmed_until_built (evs : list event) : bool :=
  match evs with
  | [] => true
  | EvBuild _ true :: _ => true
  | EvNode text :: rest =>
      negb (Str.empty text) && negb (Str.is_char " " (Str.front text))
        && trimmed_until_built rest
  | _ :: rest => trimmed_until_built rest
  end.

(** The calls that add or remove blank padding. *)
Definition is_spacing (e : event) : bool :=
  match e with
  | EvSpace _ | EvRemoveTrailingSpace _ => true
  | _ => false
  end.

(** The widths of the padding calls are those of the format. *)
Definition padding_of (s : nat) (e : event) : Prop :=
  match e with
  | EvSpace n => n = s
  | EvRemoveTrailingSpace n => n = Nat.max 1 s
  | _ => True
  end.

(** No empty text is handed to the builder. *)
Definition text_given (e : event) : Prop :=
  match e with
  | EvNode text | EvAppend text => text <> EmptyString
  | _ => True
  end.

(** A tag as [build] is meant to get it: from a ['<'] to a ['>']. *)
Definition tag_shaped (e : event) : Prop :=
  match e with
  | EvBuild tag _ =>
      Str.is_char "<" (Str.front tag) = true /\
      Str.is_char ">" (Str.back tag) = true /\
      2 <= String.length tag
  | _ => True
  end.

(** The number of calls of [get_output] in a trace. *)
Definition render_calls (evs : list event) : nat :=
  length
    (List.filter
       (fun e => match e with EvCall GetOutput => true | _ => false end) evs).



(** What scanning a template for tag spans leaves of it: the text after
    the last span found; [fuel] bounds the number of spans. *)
Fixpoint scan_rest (fuel : nat) (v : string) : string :=
  match fuel with
  | O => v
  | S fuel' =>
      match next_span v with
      | None => v
      | Some (_, end_) => scan_rest fuel' (Str.erase (S end_) v)
      end
  end.

Definition unscanned (v : string) : string := scan_rest (render_fuel v) v.

End Further.

(** * Properties *)

(** ** Strings *)

Module StrFacts.
Import Str.

Lemma find_bounds (c : ascii) (s : string) :
  forall pos i, find c pos s = Some i -> pos <= i /\ i < String.length s.
Proof.
  induction s as [|a s IH]; intros pos i H; simpl in H; [discriminate|].
  destruct pos as [|p].
  - destruct (Ascii.eqb a c).
    + injection H as <-. simpl. lia.
    + destruct (find c 0 s) as [j|] eqn:E; [|discriminate].
      injection H as <-. apply IH in E. simpl. lia.
  - destruct (find c p s) as [j|] eqn:E; [|discriminate].
    injection H as <-. apply IH in E. simpl. lia.
Qed.

Lemma length_erase (s : string) :
  forall n, String.length (erase n s) = String.length s - n.
Proof.
  induction s as [|a s IH]; intros [|n]; simpl; auto.
Qed.

Lemma length_take (s : string) :
  forall n, String.length (take n s) = Nat.min n (String.length s).
Proof.
  induction s as [|a s IH]; intros [|n]; simpl; auto.
Qed.

Lemma empty_length (s : string) : empty s = true <-> String.length s = 0.
Proof. destruct s; simpl; split; intros; congruence. Qed.

Lemma erase_0 (s : string) : erase 0 s = s.
Proof. destruct s; reflexivity. Qed.

Lemma append_cons (a : ascii) (s1 s2 : string) :
  String a s1 +:+ s2 = String a (s1 +:+ s2).
Proof. reflexivity. Qed.

Lemma append_nil_r (s : string) : s +:+ EmptyString = s.
Proof.
  induction s as [|a s IH]; [reflexivity|].
  rewrite append_cons, IH. reflexivity.
Qed.

Lemma append_assoc (s1 s2 s3 : string) :
  (s1 +:+ s2) +:+ s3 = s1 +:+ (s2 +:+ s3).
Proof.
  induction s1 as [|a s1 IH]; [reflexivity|].
  rewrite !append_cons, IH. reflexivity.
Qed.

Lemma empty_true (s : string) : empty s = true -> s = EmptyString.
Proof. destruct s; [reflexivity|discriminate]. Qed.

End StrFacts.

(** ** Running computations *)

Section Run.

Context {T : ImplTypes}.

Lemma run_bind_eq {A B : Type} (x : M A) (f : A -> M B) (m : module)
    (a : A) (m1 : module) (e1 : list event)
    (b : B) (m2 : module) (e2 : list event) :
  x m = (a, m1, e1) ->
  f a m1 = (b, m2, e2) ->
  (x ≫= f) m = (b, m2, e1 ++ e2).
Proof.
  intros Hx Hf. unfold mbind, M_bind, bind. rewrite Hx, Hf. reflexivity.
Qed.

Lemma run_emit {B : Type} (e : event) (k : unit -> M B) (m : module)
    (b : B) (m2 : module) (e2 : list event) :
  k tt m = (b, m2, e2) ->
  (emit e ≫= k) m = (b, m2, e :: e2).
Proof. intros Hk. unfold mbind, M_bind, bind, emit. rewrite Hk. reflexivity. Qed.

Lemma run_get {B : Type} (k : module -> M B) (m : module)
    (r : B * module * list event) :
  k m m = r -> (get ≫= k) m = r.
Proof.
  intros <-. unfold mbind, M_bind, bind, get.
  destruct (k m m) as [[b m2] e2]. reflexivity.
Qed.

Lemma run_triple {A : Type} (r : A * module * list event) :
  r = (result r, state r, trace r).
Proof. destruct r as [[a m] e]. reflexivity. Qed.

End Run.

(** Runs a computation made of binds over concrete steps. *)
Ltac run :=
  unfold mbind, M_bind, bind, emit, modify, get, ret;
  cbn [fst snd app].

Module TagFacts.
Import Str StrFacts.

Lemma erase_erase (s : string) :
  forall a b, erase a (erase b s) = erase (b + a) s.
Proof.
  induction s as [|c s IH]; intros a [|b]; simpl.
  - destruct a; reflexivity.
  - destruct a; reflexivity.
  - reflexivity.
  - apply IH.
Qed.

(** The character found by [find] is the first one of what is left when
    everything before it is erased. *)
Lemma find_erase (c : ascii) (s : string) :
  forall pos i, find c pos s = Some i ->
    exists rest, erase i s = String c rest.
Proof.
  induction s as [|a s IH]; intros pos i H; simpl in H; [discriminate|].
  destruct pos as [|p].
  - destruct (Ascii.eqb a c) eqn:E.
    + injection H as <-. apply Ascii.eqb_eq in E. subst a.
      exists s. reflexivity.
    + destruct (find c 0 s) as [j|] eqn:F; [|discriminate].
      injection H as <-. simpl. eapply IH; eauto.
  - destruct (find c p s) as [j|] eqn:F; [|discriminate].
    injection H as <-. simpl. eapply IH; eauto.
Qed.

Lemma back_take (t : string) :
  forall k c rest, erase k t = String c rest -> back (take (S k) t) = Some c.
Proof.
  induction t as [|a t IH]; intros k c rest H.
  - destruct k; discriminate.
  - destruct k as [|k]; simpl in H.
    + injection H as -> ->. reflexivity.
    + specialize (IH k c rest H). simpl in *.
      destruct t as [|a' t']; [destruct k; discriminate|].
      exact IH.
Qed.

(** The span from a ['<'] found at [start] to a ['>'] found from there at
    [end_]: it is not empty, opens with ['<'] and closes with ['>']. *)
Lemma tag_shape (v : string) (start end_ : nat) :
  find "<" 0 v = Some start ->
  find ">" start v = Some end_ ->
  let tag := take (end_ - start + 1) (erase start v) in
  String.length tag = end_ - start + 1 /\
  empty tag = false /\
  is_char "<" (front tag) = true /\
  is_char ">" (back tag) = true.
Proof.
  intros Hs He tag.
  destruct (find_bounds _ _ _ _ He) as [Hle Hlt].
  destruct (find_erase _ _ _ _ Hs) as [r1 E1].
  destruct (find_erase _ _ _ _ He) as [r2 E2].
  assert (Hlen : String.length tag = end_ - start + 1).
  { unfold tag. rewrite length_take, length_erase. lia. }
  split; [exact Hlen|]. split; [|split].
  - destruct (empty tag) eqn:E; [|reflexivity].
    apply empty_length in E. lia.
  - unfold tag. rewrite E1. replace (end_ - start + 1) with (S (end_ - start)) by lia.
    reflexivity.
  - unfold tag. replace (end_ - start + 1) with (S (end_ - start)) by lia.
    rewrite (back_take _ _ ">"%char r2); [reflexivity|].
    rewrite erase_erase. replace (start + (end_ - start)) with end_ by lia.
    exact E2.
Qed.

End TagFacts.

(** ** The render loop, one iteration at a time *)

Section Render.

Context {T : ImplTypes} {I : ModuleImpl T} {K : Markup}.
Variables (fmt : format) (mingap : nat).

Lemma render_literal_run (start : nat) (l : locals) (m : module) :
  fake_no_tag_built l = false ->
  let text := if no_tag_built l
              then Str.ltrim (Str.substr 0 start (value' l))
              else Str.substr 0 start (value' l) in
  render_literal start l m =
    if no_tag_built l && Str.empty text
    then (set_value (Str.erase start (value' l)) l, m, [])
    else (set_value (Str.erase start (value' l)) l,
          set_builder (Builder.node text (m_builder m)) m,
          [EvNode text]).
Proof.
  destruct l as [ntb fake tb v]. simpl. intros ->.
  unfold render_literal. simpl.
  destruct ntb; simpl.
  - destruct (Str.empty _) eqn:E; simpl.
    + run. reflexivity.
    + unfold builder_node. run. reflexivity.
  - unfold builder_node. run. reflexivity.
Qed.

Lemma render_tag_run (tag : string) (l : locals) (m : module) :
  fake_no_tag_built l = false ->
  let m1 := spaced fmt (no_tag_built l) m in
  let r := impl_build m1 (m_builder m1) tag in
  let m2 := set_builder (fst r) m1 in
  let removes := negb (snd r) && negb (no_tag_built l) in
  render_tag fmt mingap tag l m =
    ({| no_tag_built := no_tag_built l && negb (snd r);
        fake_no_tag_built := false;
        tag_built := snd r;
        value' := value' l |},
     if removes
     then set_builder (Builder.remove_trailing_space mingap (m_builder m2)) m2
     else m2,
     (if no_tag_built l then [] else [EvSpace (spacing fmt)])
       ++ [EvBuild tag (snd r)]
       ++ (if removes then [EvRemoveTrailingSpace mingap] else [])).
Proof.
  destruct l as [ntb fake tb v]. simpl. intros ->.
  unfold render_tag, build, builder_space, builder_remove_trailing_space, spaced.
  destruct ntb; simpl.
  - run. destruct (snd (impl_build _ _ _)); simpl; run; reflexivity.
  - run. destruct (snd (impl_build _ _ _)); simpl; run; reflexivity.
Qed.

Lemma after_literal_locals (start : nat) (l : locals) (m : module) :
  fake_no_tag_built l = false ->
  result (after_literal start l m) = set_value (Str.erase start (value' l)) l.
Proof.
  intros Hf. unfold after_literal.
  destruct start as [|n].
  - change (Nat.ltb 0 0) with false. cbv iota.
    rewrite StrFacts.erase_0. destruct l; reflexivity.
  - change (Nat.ltb 0 (S n)) with true. cbv iota.
    rewrite render_literal_run by exact Hf.
    destruct (no_tag_built l && _); reflexivity.
Qed.

(** One turn of the loop on a template that still holds a tag: the
    branches [tag.empty()] and [else] of the source are never taken. *)
Lemma render_loop_step (fuel : nat) (l : locals) (m : module)
    (start end_ : nat) :
  fake_no_tag_built l = false ->
  Str.find "<" 0 (value' l) = Some start ->
  Str.find ">" start (value' l) = Some end_ ->
  let r1 := after_literal start l m in
  let tag := Str.take (end_ - start + 1) (Str.erase start (value' l)) in
  let r2 := render_tag fmt mingap tag (result r1) (state r1) in
  let l3 := set_value (Str.erase (String.length tag) (value' (result r2)))
              (result r2) in
  let r3 := render_loop fuel fmt mingap l3 (state r2) in
  render_loop (S fuel) fmt mingap l m =
    (result r3, state r3, trace r1 ++ trace r2 ++ trace r3).
Proof.
  intros Hf Hs He r1 tag r2 l3 r3.
  destruct (TagFacts.tag_shape _ _ _ Hs He) as (Hlen & Hne & Hfront & Hback).
  fold tag in Hlen, Hne, Hfront, Hback.
  assert (Hl1 : result r1 = set_value (Str.erase start (value' l)) l)
    by (apply after_literal_locals; exact Hf).
  cbn [render_loop]. rewrite Hs, He.
  apply (run_bind_eq _ _ _
           (result r1, (if Nat.ltb 0 start then 0 else start),
            (if Nat.ltb 0 start then end_ - start else end_))
           (state r1) (trace r1)).
  - subst r1. unfold after_literal. destruct (Nat.ltb 0 start).
    + rewrite <- (app_nil_r (trace (render_literal start l m))).
      eapply run_bind_eq; [apply run_triple|reflexivity].
    + reflexivity.
  - cbv beta iota zeta.
    assert (Et : Str.substr (if Nat.ltb 0 start then 0 else start)
                   ((if Nat.ltb 0 start then end_ - start else end_) + 1)
                   (value' (result r1)) = tag).
    { rewrite Hl1. unfold tag, Str.substr. cbn [value' set_value].
      destruct start as [|n].
      - change (Nat.ltb 0 0) with false. cbv iota.
        rewrite !StrFacts.erase_0, Nat.sub_0_r. reflexivity.
      - change (Nat.ltb 0 (S n)) with true. cbv iota.
        rewrite TagFacts.erase_erase, Nat.add_0_r. reflexivity. }
    rewrite Et, Hne, Hfront, Hback. cbn [andb].
    eapply run_bind_eq; apply run_triple.
Qed.

Lemma render_loop_exit (fuel : nat) (l : locals) (m : module) :
  next_span (value' l) = None ->
  render_loop (S fuel) fmt mingap l m = (Some l, m, []).
Proof.
  unfold next_span. intros H. simpl.
  destruct (Str.find "<" 0 (value' l)) as [start|]; [|reflexivity].
  destruct (Str.find ">" start (value' l)); [discriminate|reflexivity].
Qed.

Lemma next_locals_run (start end_ : nat) (l : locals) (m : module) :
  fake_no_tag_built l = false ->
  Str.find "<" 0 (value' l) = Some start ->
  Str.find ">" start (value' l) = Some end_ ->
  let l3 := next_locals fmt mingap start end_ l m in
  fake_no_tag_built l3 = false /\
  value' l3 = Str.erase (S end_) (value' l) /\
  String.length (value' l3) < String.length (value' l).
Proof.
  intros Hf Hs He l3.
  destruct (TagFacts.tag_shape _ _ _ Hs He) as (Hlen & _).
  destruct (StrFacts.find_bounds _ _ _ _ He) as [Hle Hlt].
  assert (Hv : value' l3 = Str.erase (S end_) (value' l)).
  { unfold l3, next_locals.
    rewrite render_tag_run by (rewrite after_literal_locals by exact Hf; exact Hf).
    rewrite after_literal_locals by exact Hf.
    unfold result. cbn [fst value' set_value].
    rewrite Hlen, TagFacts.erase_erase.
    replace (start + (end_ - start + 1)) with (S end_) by lia.
    reflexivity. }
  split; [|split].
  - unfold l3, next_locals.
    rewrite render_tag_run by (rewrite after_literal_locals by exact Hf; exact Hf).
    reflexivity.
  - exact Hv.
  - rewrite Hv, StrFacts.length_erase. lia.
Qed.

(** Induction over the turns of the loop, for a loop that is given enough
    fuel: a property that holds when the loop is left at once, and is kept
    by one more turn in front, holds of every run. *)
Lemma render_loop_ind
    (P : locals -> module -> option locals * module * list event -> Prop) :
  (forall l m, fake_no_tag_built l = false ->
     next_span (value' l) = None -> P l m (Some l, m, [])) ->
  (forall l m start end_ r3,
     fake_no_tag_built l = false ->
     Str.find "<" 0 (value' l) = Some start ->
     Str.find ">" start (value' l) = Some end_ ->
     let r1 := after_literal start l m in
     let tag := Str.take (end_ - start + 1) (Str.erase start (value' l)) in
     let r2 := render_tag fmt mingap tag (result r1) (state r1) in
     P (next_locals fmt mingap start end_ l m) (state r2) r3 ->
     P l m (result r3, state r3, trace r1 ++ trace r2 ++ trace r3)) ->
  forall fuel l m,
    fake_no_tag_built l = false ->
    String.length (value' l) < fuel ->
    P l m (render_loop fuel fmt mingap l m).
Proof.
  intros Hexit Hstep.
  induction fuel as [|fuel IH]; intros l m Hf Hlen; [lia|].
  destruct (Str.find "<" 0 (value' l)) as [start|] eqn:Hs.
  - destruct (Str.find ">" start (value' l)) as [end_|] eqn:He.
    + rewrite (render_loop_step fuel l m start end_ Hf Hs He).
      destruct (next_locals_run start end_ l m Hf Hs He) as (Hf3 & _ & Hlt).
      apply (Hstep l m start end_ _ Hf Hs He).
      apply IH; [exact Hf3|].
      eapply Nat.lt_le_trans; [exact Hlt|lia].
    + rewrite render_loop_exit; [apply Hexit; [exact Hf|]|];
        unfold next_span; rewrite Hs, He; reflexivity.
  - rewrite render_loop_exit; [apply Hexit; [exact Hf|]|];
      unfold next_span; rewrite Hs; reflexivity.
Qed.

End Render.

(** ** The shape of the trace of a render *)

Section ShapeFacts.

Context {T : ImplTypes}.

Lemma no_build_app (l1 l2 : list event) :
  no_build l1 -> no_build l2 -> no_build (l1 ++ l2).
Proof. unfold no_build. intros H1 H2. apply Forall_app. split; assumption. Qed.

Lemma no_build_literal (lit : list event) : literal_events lit -> no_build lit.
Proof.
  intros [->|[text ->]]; unfold no_build; repeat constructor.
Qed.

Lemma no_build_spacer (s : nat) (ntb : bool) : no_build (spacer s ntb).
Proof. destruct ntb; unfold no_build; repeat constructor. Qed.

Lemma no_build_remover (g : nat) (ntb ok : bool) : no_build (remover g ntb ok).
Proof.
  unfold remover. destruct (negb ok && negb ntb); unfold no_build;
    repeat constructor.
Qed.

Lemma has_built_no_build (l : list event) : no_build l -> has_built l = false.
Proof.
  induction 1 as [|e l He _ IH]; [reflexivity|].
  simpl. rewrite IH. destruct e; try reflexivity. discriminate.
Qed.

Lemma has_built_app (l1 l2 : list event) :
  has_built (l1 ++ l2) = has_built l1 || has_built l2.
Proof. unfold has_built. apply existsb_app. Qed.

(** Where a tag sits in a trace that opens with calls other than [build]:
    it is the first tag, or it comes after it. *)
Lemma first_build (l1 : list event) :
  forall e1 r1 pre e2 post,
    no_build l1 -> is_build e1 = true -> is_build e2 = true ->
    l1 ++ e1 :: r1 = pre ++ e2 :: post ->
    (pre = l1 /\ e2 = e1 /\ post = r1) \/
    (exists mid, pre = l1 ++ e1 :: mid /\ r1 = mid ++ e2 :: post).
Proof.
  induction l1 as [|a l1 IH]; intros e1 r1 pre e2 post Hn H1 H2 E.
  - destruct pre as [|p pre]; simpl in E; injection E as -> ->.
    + left. auto.
    + right. exists pre. auto.
  - inversion Hn as [|? ? Ha Hn']; subst.
    destruct pre as [|p pre]; simpl in E; injection E as -> E.
    + congruence.
    + destruct (IH _ _ _ _ _ Hn' H1 H2 E) as [(-> & -> & ->)|(mid & -> & ->)].
      * left. auto.
      * right. exists mid. auto.
Qed.

End ShapeFacts.

Section Split.
Context {T : ImplTypes}.

Lemma last_after_build (l : list event) (tag : string) (ok : bool)
    (mid : list event) (n : nat) :
  (forall k, last mid <> Some (EvSpace k)) ->
  last (l ++ EvBuild tag ok :: mid) <> Some (EvSpace n).
Proof.
  intros H. rewrite last_app. rewrite last_cons.
  destruct (last mid) as [y|] eqn:E.
  - intros [= ->]. apply (H n). reflexivity.
  - discriminate.
Qed.

Lemma render_trace_split (s g : nat) (ntb : bool) (evs : list event) :
  render_trace s g ntb evs ->
  forall pre tag ok post,
    evs = pre ++ EvBuild tag ok :: post ->
    let built := negb ntb || has_built pre in
    (if built then last pre = Some (EvSpace s)
     else forall n, last pre <> Some (EvSpace n)) /\
    exists post',
      post = remover g (negb built) ok ++ post' /\
      render_trace s g (negb built && negb ok) post'.
Proof.
  induction 1 as [ntb tl Hn|ntb lit tag0 ok0 evs Hlit Hrt IH];
    intros pre tag ok post E.
  - exfalso. subst tl. apply Forall_app in Hn as [_ Hn].
    inversion Hn; subst. discriminate.
  - rewrite app_assoc in E.
    assert (Hl1 : no_build (lit ++ spacer s ntb))
      by (apply no_build_app; [apply no_build_literal; exact Hlit|apply no_build_spacer]).
    apply first_build in E; [|exact Hl1|reflexivity|reflexivity].
    destruct E as [(-> & [= -> ->] & ->)|(mid & -> & E)].
    + rewrite (has_built_no_build _ Hl1), orb_false_r.
      destruct ntb; simpl negb; cbv iota.
      * split.
        -- unfold spacer. rewrite app_nil_r.
           destruct Hlit as [->|[text ->]]; intros n; discriminate.
        -- exists evs. split; [reflexivity|exact Hrt].
      * split.
        -- unfold spacer. apply last_snoc.
        -- exists evs. split; [reflexivity|exact Hrt].
    + assert (Hmid : exists mid', mid = remover g ntb ok0 ++ mid' /\
                                  evs = mid' ++ EvBuild tag ok :: post).
      { unfold remover in *. destruct (negb ok0 && negb ntb).
        - destruct mid as [|e mid']; simpl in E; [discriminate|].
          injection E as <- ->. exists mid'. auto.
        - exists mid. auto. }
      destruct Hmid as (mid' & -> & ->).
      specialize (IH mid' tag ok post eq_refl). cbv zeta in IH.
      assert (Hb : negb ntb || has_built ((lit ++ spacer s ntb) ++ EvBuild tag0 ok0 :: remover g ntb ok0 ++ mid')
                   = negb (ntb && negb ok0) || has_built mid').
      { rewrite has_built_app, (has_built_no_build _ Hl1).
        change (EvBuild tag0 ok0 :: remover g ntb ok0 ++ mid')
          with ([EvBuild tag0 ok0] ++ remover g ntb ok0 ++ mid').
        rewrite !has_built_app, (has_built_no_build _ (no_build_remover _ _ _)).
        simpl. destruct ntb, ok0; reflexivity. }
      rewrite Hb. destruct IH as [IH1 IH2]. split; [|exact IH2].
      destruct (negb (ntb && negb ok0) || has_built mid') eqn:B.
      * apply last_Some in IH1 as [l' ->].
        rewrite !app_comm_cons, !app_assoc. apply last_snoc.
      * apply orb_false_iff in B as [B _].
        destruct ntb, ok0; try discriminate. simpl remover.
        intros n. apply last_after_build. exact IH1.
Qed.
End Split.

(** ** The whole render *)

Section Output.

Context {T : ImplTypes} {I : ModuleImpl T} {K : Markup}.

(** The loop is left, on what is left of the template, before the fuel
    runs out. *)
Lemma render_loop_finishes (fmt : format) (mingap : nat) :
  forall fuel l m,
    fake_no_tag_built l = false ->
    String.length (value' l) < fuel ->
    exists l',
      result (render_loop fuel fmt mingap l m) = Some l' /\
      next_span (value' l') = None /\
      exists n, value' l' = Str.erase n (value' l).
Proof.
  apply (render_loop_ind fmt mingap
    (fun l m r => exists l', result r = Some l' /\
                    next_span (value' l') = None /\
                    exists n, value' l' = Str.erase n (value' l))).
  - intros l m _ Hx. exists l. split; [reflexivity|]. split; [exact Hx|].
    exists 0. symmetry. apply StrFacts.erase_0.
  - intros l m start end_ r3 Hf Hs He r1 tag r2 (l' & Hr & Hx & n & Hn).
    exists l'. split; [exact Hr|]. split; [exact Hx|].
    destruct (next_locals_run fmt mingap start end_ l m Hf Hs He) as (_ & Hv & _).
    exists (S end_ + n). rewrite Hn, Hv. apply TagFacts.erase_erase.
Qed.

(** More fuel than the length of the template changes nothing. *)
Lemma render_loop_fuel (fmt : format) (mingap : nat) :
  forall fuel l m,
    fake_no_tag_built l = false ->
    String.length (value' l) < fuel ->
    render_loop (S fuel) fmt mingap l m = render_loop fuel fmt mingap l m.
Proof.
  induction fuel as [|fuel IH]; intros l m Hf Hlen; [lia|].
  destruct (Str.find "<" 0 (value' l)) as [start|] eqn:Hs.
  - destruct (Str.find ">" start (value' l)) as [end_|] eqn:He.
    + rewrite (render_loop_step fmt mingap (S fuel) l m start end_ Hf Hs He).
      rewrite (render_loop_step fmt mingap fuel l m start end_ Hf Hs He).
      destruct (next_locals_run fmt mingap start end_ l m Hf Hs He)
        as (Hf3 & _ & Hlt).
      fold (next_locals fmt mingap start end_ l m).
      rewrite IH; [reflexivity|exact Hf3|].
      eapply Nat.lt_le_trans; [exact Hlt|lia].
    + rewrite !render_loop_exit; [reflexivity| |];
        unfold next_span; rewrite Hs, He; reflexivity.
  - rewrite !render_loop_exit; [reflexivity| |];
      unfold next_span; rewrite Hs; reflexivity.
Qed.

Lemma render_loop_enough (fmt : format) (mingap : nat) (l : locals)
    (m : module) :
  fake_no_tag_built l = false ->
  forall fuel, render_fuel (value' l) <= fuel ->
    render_loop fuel fmt mingap l m
      = render_loop (render_fuel (value' l)) fmt mingap l m.
Proof.
  intros Hf fuel Hle. induction Hle as [|fuel Hle IH]; [reflexivity|].
  rewrite render_loop_fuel; [exact IH|exact Hf|].
  unfold render_fuel in Hle. lia.
Qed.

Lemma after_literal_trace (start : nat) (l : locals) (m : module) :
  fake_no_tag_built l = false ->
  literal_events (trace (after_literal start l m)).
Proof.
  intros Hf. unfold after_literal. destruct (Nat.ltb 0 start).
  - rewrite render_literal_run by exact Hf.
    destruct (no_tag_built l && _); [left|right; eexists]; reflexivity.
  - left. reflexivity.
Qed.

Lemma render_loop_trace (fmt : format) (mingap : nat) :
  forall fuel l m,
    fake_no_tag_built l = false ->
    String.length (value' l) < fuel ->
    forall tl, no_build tl ->
      render_trace (spacing fmt) mingap (no_tag_built l)
        (trace (render_loop fuel fmt mingap l m) ++ tl).
Proof.
  apply (render_loop_ind fmt mingap
    (fun l m r => forall tl, no_build tl ->
       render_trace (spacing fmt) mingap (no_tag_built l) (trace r ++ tl))).
  - intros l m _ _ tl Htl. apply rt_left. exact Htl.
  - intros l m start end_ r3 Hf Hs He r1 tag r2 IH tl Htl.
    specialize (IH tl Htl).
    assert (Hl1 : result r1 = set_value (Str.erase start (value' l)) l)
      by (apply after_literal_locals; exact Hf).
    assert (Hf1 : fake_no_tag_built (result r1) = false)
      by (rewrite Hl1; exact Hf).
    pose proof (render_tag_run fmt mingap tag (result r1) (state r1) Hf1) as E2.
    cbv zeta in E2. fold r2 in E2.
    assert (Hn1 : no_tag_built (result r1) = no_tag_built l)
      by (rewrite Hl1; reflexivity).
    rewrite Hn1 in E2.
    set (ok := snd (impl_build _ _ tag)) in E2.
    assert (Hn3 : no_tag_built (next_locals fmt mingap start end_ l m)
                  = no_tag_built l && negb ok).
    { unfold next_locals. fold r1. fold tag. fold r2. rewrite E2. reflexivity. }
    rewrite Hn3 in IH.
    unfold trace at 1. cbn [snd].
    rewrite E2. unfold trace at 2. cbn [snd].
    rewrite <- !app_assoc. cbn [app].
    apply (rt_span _ _ _ _ tag ok).
    + apply after_literal_trace. exact Hf.
    + exact IH.
Qed.

(** [get_output] as the loop followed by the trailing text, the flush and
    the decoration. *)
Lemma get_output_run (m : module) :
  exists l',
    result (loop_run m) = Some l' /\
    next_span (value' l') = None /\
    (exists n, value' l' = Str.erase n (value (selected_format m))) /\
    let content := m_builder (state (loop_run m)) +:+ value' l' in
    let d := decorate (selected_format m) EmptyString content in
    get_output m =
      (snd d, set_builder (fst d) (state (loop_run m)),
       [EvLock [m_buildlock]; EvCall GetFormat]
         ++ trace (loop_run m)
         ++ (if Str.empty (value' l') then [] else [EvAppend (value' l')])
         ++ [EvFlush; EvDecorate content; EvUnlock m_buildlock]).
Proof.
  destruct (render_loop_finishes (selected_format m)
              (Nat.max 1 (spacing (selected_format m)))
              (render_fuel (value (selected_format m)))
              (initial_locals (selected_format m)) m eq_refl)
    as (l' & Hr & Hx & Hn).
  { unfold render_fuel, initial_locals. cbn [value']. lia. }
  exists l'. fold (loop_run m) in Hr.
  split; [exact Hr|]. split; [exact Hx|]. split; [exact Hn|].
  cbv zeta. unfold get_output. cbn [app].
  apply run_emit, run_get, run_emit.
  eapply run_bind_eq; [apply run_triple|].
  fold (selected_format m). fold (initial_locals (selected_format m)).
  fold (loop_run m). rewrite Hr.
  unfold builder_append, builder_flush.
  destruct (Str.empty (value' l')) eqn:E; cbn [negb].
  - apply StrFacts.empty_true in E. rewrite E, StrFacts.append_nil_r.
    run. reflexivity.
  - run. reflexivity.
Qed.

End Output.

(** ** Spacing between tags *)

Section Spacing.

Context {T : ImplTypes} {I : ModuleImpl T} {K : Markup}.

Lemma get_output_trace (m : module) :
  exists evs,
    trace (get_output m) = EvLock [m_buildlock] :: EvCall GetFormat :: evs /\
    render_trace (spacing (selected_format m))
      (Nat.max 1 (spacing (selected_format m))) true evs.
Proof.
  destruct (get_output_run m) as (l' & Hr & _ & _ & E).
  cbv zeta in E. rewrite E. unfold trace. cbn [snd app].
  eexists. split; [reflexivity|].
  apply (render_loop_trace (selected_format m)
           (Nat.max 1 (spacing (selected_format m)))
           (render_fuel (value (selected_format m)))
           (initial_locals (selected_format m)) m eq_refl).
  - unfold render_fuel, initial_locals. cbn [value']. lia.
  - destruct (Str.empty (value' l')); unfold no_build; repeat constructor.
Qed.

Lemma last_cons_no_space (e : event) (l : list event) :
  (forall n, e <> EvSpace n) ->
  (forall n, last l <> Some (EvSpace n)) ->
  forall n, last (e :: l) <> Some (EvSpace n).
Proof.
  intros He Hl n. rewrite last_cons.
  destruct (last l) as [y|] eqn:E.
  - apply Hl.
  - intros [= ->]. apply (He n). reflexivity.
Qed.

(** Around every tag of a render: whether a spacer precedes it, and
    whether the removal of the spacer follows it, is decided by whether a
    tag has built before it. *)
Lemma get_output_split (m : module) (pre : list event) (tag : string)
    (ok : bool) (post : list event) :
  trace (get_output m) = pre ++ EvBuild tag ok :: post ->
  let s := spacing (selected_format m) in
  let built := has_built pre in
  (if built then last pre = Some (EvSpace s)
   else forall n, last pre <> Some (EvSpace n)) /\
  exists post',
    post = remover (Nat.max 1 s) (negb built) ok ++ post' /\
    render_trace s (Nat.max 1 s) (negb built && negb ok) post'.
Proof.
  intros E. destruct (get_output_trace m) as (evs & Ht & Hrt).
  rewrite Ht in E.
  destruct pre as [|p1 [|p2 pre]]; try discriminate.
  injection E as <- <- E.
  destruct (render_trace_split _ _ _ _ Hrt pre tag ok post E) as [H1 H2].
  cbv zeta. cbn [has_built existsb orb negb] in *.
  fold (has_built pre) in *.
  split; [|exact H2].
  destruct (has_built pre).
  - apply last_Some in H1 as [l' ->].
    rewrite !app_comm_cons. apply last_snoc.
  - apply last_cons_no_space; [discriminate|].
    apply last_cons_no_space; [discriminate|exact H1].
Qed.

End Spacing.

(** ** The builder's trailing spaces *)

Module BuilderFacts.
Import Str.







End BuilderFacts.

(** ** The claims on spacing *)

Section SpacingClaims.

Context {T : ImplTypes} {I : ModuleImpl T} {K : Markup}.

(** C1, as amended.  In every render pass of [get_output], once a tag has
    built successfully every later tag span is treated as having prior
    output: the call right before its [build] is [space] with the
    format's spacing.  The first tag span of a render is invoked without
    a spacer, whether or not literal text was emitted before it. *)
Theorem spacer_follows_built_tag (m : module) (pre : list event)
    (tag : string) (ok : bool) (post : list event) :
  trace (get_output m) = pre ++ EvBuild tag ok :: post ->
  (has_built pre = true ->
     last pre = Some (EvSpace (spacing (selected_format m)))) /\
  (no_build pre -> forall n, last pre <> Some (EvSpace n)).
Proof.
  intros E. destruct (get_output_split m pre tag ok post E) as [H _].
  cbv zeta in H. split.
  - intros Hb. rewrite Hb in H. exact H.
  - intros Hn. rewrite (has_built_no_build _ Hn) in H. exact H.
Qed.


End SpacingClaims.

(** ** A ['<'] that is never closed *)

Module UnmatchedFacts.
Import Str StrFacts.

Lemma find_lacks (c : ascii) (s : string) :
  lacks c s = true -> forall pos, find c pos s = None.
Proof.
  induction s as [|a s IH]; intros H pos; [reflexivity|].
  cbn [lacks] in H. apply andb_true_iff in H as [Ha Hs].
  apply negb_true_iff in Ha. cbn [find].
  destruct pos as [|p]; [rewrite Ha|]; rewrite (IH Hs); reflexivity.
Qed.

(** What [find] finds in front of a text that lacks the character lies
    before that text. *)
Lemma find_in_prefix (c : ascii) (s2 : string) (s1 : string) :
  lacks c s2 = true ->
  forall pos i, find c pos (s1 +:+ s2) = Some i -> i < String.length s1.
Proof.
  intros H2. induction s1 as [|a s1 IH]; intros pos i H.
  - change (EmptyString +:+ s2) with s2 in H.
    rewrite (find_lacks _ _ H2) in H. discriminate.
  - rewrite append_cons in H. cbn [find] in H. cbn [String.length].
    destruct pos as [|p].
    + destruct (Ascii.eqb a c).
      * injection H as <-. lia.
      * destruct (find c 0 (s1 +:+ s2)) as [j|] eqn:E; [|discriminate].
        injection H as <-. apply IH in E. lia.
    + destruct (find c p (s1 +:+ s2)) as [j|] eqn:E; [|discriminate].
      injection H as <-. apply IH in E. lia.
Qed.

Lemma erase_app (s2 : string) (s1 : string) :
  forall n, n <= String.length s1 ->
    erase n (s1 +:+ s2) = erase n s1 +:+ s2.
Proof.
  induction s1 as [|a s1 IH]; intros n Hn.
  - cbn [String.length] in Hn. assert (n = 0) as -> by lia.
    rewrite erase_0. reflexivity.
  - destruct n as [|n]; [reflexivity|].
    rewrite append_cons. cbn [erase]. apply IH.
    cbn [String.length] in Hn. lia.
Qed.

Lemma take_erase (s : string) : forall n, take n s +:+ erase n s = s.
Proof.
  induction s as [|a s IH]; intros [|n]; try reflexivity.
  cbn [take erase]. rewrite append_cons, IH. reflexivity.
Qed.

End UnmatchedFacts.

(** ** The scenario of §8 *)

Section Scenario.

Context {T : ImplTypes} {I : ModuleImpl T} {K : Markup}.

Lemma set_builder_id (m : module) : set_builder (m_builder m) m = m.
Proof. destruct m; reflexivity. Qed.

Lemma m_builder_set (a : Builder.t) (m : module) :
  m_builder (set_builder a m) = a.
Proof. reflexivity. Qed.

Lemma set_builder_twice (a b : Builder.t) (m : module) :
  set_builder a (set_builder b m) = set_builder a m.
Proof. reflexivity. Qed.

Lemma scenario_loop (m : module) :
  value (selected_format m) = "<a> text <b>" ->
  spacing (selected_format m) = 1 ->
  (forall b b', impl_build (set_builder b m) b' "<a>" = (b' +:+ "X", true)) ->
  (forall b b', impl_build (set_builder b m) b' "<b>" = (b' +:+ "Y", true)) ->
  loop_run m =
    (Some {| no_tag_built := false; fake_no_tag_built := false;
             tag_built := true; value' := "" |},
     set_builder (m_builder m +:+ "X text  Y") m,
     [EvBuild "<a>" true; EvNode " text "; EvSpace 1; EvBuild "<b>" true]).
Proof.
  intros Hv Hs Ha Hb.
  assert (Ha0 : impl_build m (m_builder m) "<a>" = (m_builder m +:+ "X", true)).
  { specialize (Ha (m_builder m) (m_builder m)).
    rewrite set_builder_id in Ha. exact Ha. }
  unfold loop_run, render_fuel, initial_locals. rewrite Hv, Hs.
  cbn [String.length Nat.max].
  rewrite (render_loop_step _ _ _ _ _ 0 2) by reflexivity.
  unfold after_literal. cbn [Nat.ltb Nat.leb result state trace fst snd app].
  cbn [value' Str.take Str.erase Nat.sub Nat.add].
  rewrite render_tag_run by reflexivity.
  unfold spaced. cbn [no_tag_built value'].
  rewrite Ha0. cbn [fst snd negb andb app set_value value' String.length Str.erase].
  rewrite (render_loop_step _ _ _ _ _ 6 8) by reflexivity.
  unfold after_literal. cbn [Nat.ltb Nat.leb].
  rewrite render_literal_run by reflexivity.
  cbn [no_tag_built value' andb result state trace fst snd app set_value].
  cbn [Str.substr Str.take Str.erase Nat.sub Nat.add].
  rewrite render_tag_run by reflexivity.
  unfold spaced. cbn [no_tag_built value' set_value].
  rewrite !m_builder_set, !set_builder_twice.
  rewrite Hs, Hb.
  cbn [fst snd negb andb app set_value value' String.length Str.erase set_builder m_builder].
  rewrite render_loop_exit by reflexivity.
  cbn. unfold Builder.space, Builder.node. cbn [Str.spaces].
  rewrite !StrFacts.append_assoc. reflexivity.
Qed.

(** C2, as amended.  For the format ["<a> text <b>"] with spacing 1, when
    the implementation builds [<a>] as ["X"] and [<b>] as ["Y"], the
    content that [get_output] assembles and hands to the decoration step
    is what the builder held before, followed by ["X text  Y"]: the
    literal text [" text "] and then the spacer of one space before
    [<b>]. *)
Theorem scenario_text_between_tags (m : module) :
  value (selected_format m) = "<a> text <b>" ->
  spacing (selected_format m) = 1 ->
  (forall b b', impl_build (set_builder b m) b' "<a>" = (b' +:+ "X", true)) ->
  (forall b b', impl_build (set_builder b m) b' "<b>" = (b' +:+ "Y", true)) ->
  decorated (trace (get_output m)) = [m_builder m +:+ "X text  Y"].
Proof.
  intros Hv Hs Ha Hb.
  pose proof (scenario_loop m Hv Hs Ha Hb) as El.
  destruct (get_output_run m) as (l' & Hr & _ & _ & E).
  cbv zeta in E. rewrite E. rewrite El in Hr |- *.
  injection Hr as <-.
  unfold trace, state. cbn. rewrite StrFacts.append_nil_r. reflexivity.
Qed.

End Scenario.

(** ** The output cache *)

Section Cache.

Context {T : ImplTypes} {I : ModuleImpl T} {K : Markup}.

Lemma contents_clean (m : module) :
  m_changed m = false -> contents m = (m_cache m, m, []).
Proof.
  intros H. unfold contents. apply run_get. rewrite H. run. reflexivity.
Qed.

Lemma contents_dirty (m : module) :
  m_changed m = true ->
  let r := cast_get_output m in
  contents m =
    (cached (result r),
     set_changed false
       (set_cache (cached (result r)) (set_builder EmptyString (state r))),
     EvLog Info (m_name m +:+ ": Rebuilding cache")
       :: trace r
       ++ EvFlush
       :: (if Str.empty (result r) then [] else [EvControl R; EvFlush])).
Proof.
  intros H r. subst r. unfold contents, cached. apply run_get. rewrite H.
  unfold builder_flush, builder_control. run.
  destruct (cast_get_output m) as [[out m1] e1].
  unfold result, state, trace. cbn [fst snd m_cache set_cache set_builder].
  destruct (Str.empty out); cbn; rewrite ?app_nil_r; reflexivity.
Qed.

(** C5.  Two calls of [contents] with no [broadcast] between them return
    the same string, and the second one renders nothing: its trace is
    empty, so it calls neither [get_output] nor the builder, and it leaves
    every field of the module, cache and builder included, as it was. *)
Theorem contents_twice (m : module) :
  let r1 := contents m in
  contents (state r1) = (result r1, state r1, []).
Proof.
  intros r1. subst r1. destruct (m_changed m) eqn:H.
  - rewrite (contents_dirty m H). unfold result, state. cbn [fst snd].
    apply contents_clean. reflexivity.
  - rewrite (contents_clean m H). unfold result, state. cbn [fst snd].
    apply contents_clean. exact H.
Qed.



End Cache.

(** ** Lifecycle and actions *)

Section Actions.

Context {T : ImplTypes} {I : ModuleImpl T} {K : Markup}.

(** C7.  [stop] on a module that is not running does nothing: it returns
    with every field as it was and with an empty trace, so no log line,
    no lock, no call of [wakeup] or [teardown] and no [check_state]. *)
Theorem stop_when_stopped (m : module) :
  m_enabled m = false -> stop m = (tt, m, []).
Proof.
  intros H. unfold stop. apply run_get. rewrite H. reflexivity.
Qed.

Lemma invoke_registered (name data : string) (r : action_router)
    (e : entry) (m : module) :
  callbacks r !! name = Some e ->
  invoke name data r m = Returned (dispatch e data m).
Proof.
  intros H. unfold invoke. rewrite H. f_equal.
  assert (Hret : forall (k : unit -> M unit), (ret tt ≫= k) m = k tt m).
  { intros k. unfold mbind, M_bind, bind, ret.
    destruct (k tt m) as [[u m'] evs]. reflexivity. }
  destruct (negb (Str.empty data) && negb (with_data e)); apply Hret.
Qed.

(** C9.  [input] returns [false], with the module untouched and nothing
    called, for a name that is not in the table, and returns [true] after
    calling the member registered under the name when there is one; it
    never runs into the assertion of [invoke]. *)
Theorem input_known_or_false (name data : string) (m : module) :
  input name data m =
    match callbacks (m_router m) !! name with
    | None => Returned (false, m, [])
    | Some e =>
        Returned (true, state (dispatch e data m), trace (dispatch e data m))
    end /\
  input name data m <> AssertionFailed.
Proof.
  unfold input, has_action.
  destruct (callbacks (m_router m) !! name) as [e|] eqn:H; cbn [negb].
  - rewrite (invoke_registered name data (m_router m) e m H).
    split; [reflexivity|discriminate].
  - split; [reflexivity|discriminate].
Qed.

End Actions.

(** * The claims on concrete modules *)

Section Concrete.

(** C1 as stated fails.  The format ["a<x>"] of spacing 1: the literal
    text ["a"] is emitted, and the tag span [<x>] that follows it is
    invoked with no spacer before it. *)
Lemma literal_text_no_spacer :
  let m := label_state "a<x>" 1 ∅ (texts_of []) in
  ~ (forall pre text mid tag ok post,
       text <> EmptyString ->
       trace (get_output m)
         = pre ++ EvNode text :: mid ++ EvBuild tag ok :: post ->
       last (EvNode text :: mid)
         = Some (EvSpace (spacing (selected_format m)))).
Proof.
  intros m H.
  specialize (H locked "a" [] "<x>" false (unlocked "a")).
  assert (E : last [@EvNode label_types "a"] = Some (EvSpace 1)).
  { apply H; [discriminate|vm_compute; reflexivity]. }
  discriminate E.
Qed.

(** C1 as amended, on ["a<x><y>"] where only [<x>] builds: [<y>] comes
    after a built tag and has the spacer before it, [<x>] is the first tag
    span and has the literal text, not a spacer, before it. *)
Lemma spacer_follows_built_tag_witness :
  let m := label_state "a<x><y>" 1 ∅ (texts_of [("<x>", "X")]) in
  let pre := locked ++ [EvNode "a"; EvBuild "<x>" true; EvSpace 1] in
  let post := EvRemoveTrailingSpace 1 :: unlocked "aX " in
  let first := locked ++ [EvNode "a"] in
  let rest := EvSpace 1 :: EvBuild "<y>" false :: post in
  trace (get_output m) = pre ++ EvBuild "<y>" false :: post /\
  has_built pre = true /\
  last pre = Some (EvSpace (spacing (selected_format m))) /\
  trace (get_output m) = first ++ EvBuild "<x>" true :: rest /\
  no_build first /\
  forall n, last first <> Some (EvSpace n).
Proof.
  intros m pre post first rest.
  assert (E : trace (get_output m) = pre ++ EvBuild "<y>" false :: post)
    by (vm_compute; reflexivity).
  assert (E' : trace (get_output m) = first ++ EvBuild "<x>" true :: rest)
    by (vm_compute; reflexivity).
  assert (Hn : no_build first) by (repeat constructor).
  split; [exact E|]. split; [reflexivity|]. split.
  - apply (proj1 (spacer_follows_built_tag m pre "<y>" false post E)).
    reflexivity.
  - split; [exact E'|]. split; [exact Hn|].
    apply (proj2 (spacer_follows_built_tag m first "<x>" true rest E')).
    exact Hn.
Defined.

(** C2 as stated fails: with [<a>] built as ["X"] and [<b>] as ["Y"], the
    content assembled for ["<a> text <b>"] and spacing 1 is not
    ["X text Y"]. *)
Lemma scenario_not_single_space :
  let m := label_state "<a> text <b>" 1 ∅
             (texts_of [("<a>", "X"); ("<b>", "Y")]) in
  (forall b b', impl_build (set_builder b m) b' "<a>" = (b' +:+ "X", true)) /\
  (forall b b', impl_build (set_builder b m) b' "<b>" = (b' +:+ "Y", true)) /\
  decorated (trace (get_output m)) <> ["X text Y"].
Proof.
  intros m. split; [reflexivity|]. split; [reflexivity|].
  vm_compute. discriminate.
Qed.

(** C2 as amended, on a module whose tags [<a>] and [<b>] build as ["X"]
    and ["Y"] and whose builder is empty. *)
Lemma scenario_text_between_tags_witness :
  let m := label_state "<a> text <b>" 1 ∅
             (texts_of [("<a>", "X"); ("<b>", "Y")]) in
  value (selected_format m) = "<a> text <b>" /\
  spacing (selected_format m) = 1 /\
  (forall b b', impl_build (set_builder b m) b' "<a>" = (b' +:+ "X", true)) /\
  (forall b b', impl_build (set_builder b m) b' "<b>" = (b' +:+ "Y", true)) /\
  decorated (trace (get_output m)) = ["X text  Y"].
Proof.
  intros m. repeat (split; [reflexivity|]).
  apply (scenario_text_between_tags m); reflexivity.
Defined.


(** C7 on a module that has been stopped. *)
Lemma stop_when_stopped_witness :
  let m := set_enabled false (label_state "<x>" 1 ∅ (texts_of [])) in
  stop m = (tt, m, []).
Proof.
  intros m. apply (stop_when_stopped m). reflexivity.
Defined.

(** C8 on the code.  The action ["toggle"] is registered without data;
    invoked with the payload ["payload"] it returns, having called the
    member once and made no call on the logger: the trace holds the call
    of the member and what the member itself does, and no [EvLog]. *)
Theorem invoke_payload_without_diagnostic :
  let m := label_state "" 0 {["toggle" := @entry_without label_types 7]}
             (texts_of []) in
  exists m',
    invoke "toggle" "payload" (m_router m) m
      = Returned (tt, m', [EvMember 7; EvEmit notify_change]).
Proof.
  intros m. eexists.
  rewrite (invoke_registered "toggle" "payload" (m_router m)
             (@entry_without label_types 7) m)
    by apply lookup_singleton_eq.
  reflexivity.
Qed.

End Concrete.

(** * Further properties of the action table *)

Section Router.

Context {T : ImplTypes} {I : ModuleImpl T} {K : Markup}.

(** X1.  After a registration, in either form, [has_action] holds of the
    registered name, and it answers for every other name as it did
    before. *)
Theorem has_action_register (name other : string) (f : callback)
    (g : callback_data) (r : action_router) :
  has_action other (register_action name f r)
    = String.eqb other name || has_action other r /\
  has_action other (register_action_with_data name g r)
    = String.eqb other name || has_action other r.
Proof.
  unfold has_action, register_action, register_action_with_data.
  cbn [callbacks].
  destruct (String.eqb_spec other name) as [->|Hne]; cbn [orb].
  - rewrite !lookup_insert_eq. split; reflexivity.
  - rewrite !lookup_insert_ne by congruence. split; reflexivity.
Qed.

(** X2.  A registration replaces whatever was registered under the name
    before, in either form: only the last registration of a name counts. *)
Theorem register_overwrites (name : string) (f f' : callback)
    (g g' : callback_data) (r : action_router) :
  register_action name f (register_action name f' r)
    = register_action name f r /\
  register_action name f (register_action_with_data name g r)
    = register_action name f r /\
  register_action_with_data name g (register_action name f r)
    = register_action_with_data name g r /\
  register_action_with_data name g (register_action_with_data name g' r)
    = register_action_with_data name g r.
Proof.
  unfold register_action, register_action_with_data. cbn [callbacks].
  repeat split; rewrite insert_insert_eq; reflexivity.
Qed.

(** X3.  [invoke] runs into its assertion exactly for the names of which
    [has_action] is false. *)
Theorem invoke_asserts_iff_unknown (name data : string) (r : action_router)
    (m : module) :
  invoke name data r m = AssertionFailed <-> has_action name r = false.
Proof.
  unfold invoke, has_action.
  destruct (callbacks r !! name); split; intros H; try discriminate; reflexivity.
Qed.

Lemma input_registered (name data : string) (e : entry) (m : module) :
  callbacks (m_router m) !! name = Some e ->
  input name data m
    = Returned (true, state (dispatch e data m), trace (dispatch e data m)).
Proof.
  intros H. unfold input, has_action. rewrite H. cbn [negb].
  rewrite (invoke_registered name data (m_router m) e m H). reflexivity.
Qed.

Lemma run_emit_then {A : Type} (e : event) (k : M A) (m : module) :
  (emit e;; k) m = (result (k m), state (k m), e :: trace (k m)).
Proof. apply run_emit. apply run_triple. Qed.

(** X4.  An action registered on the router of a module is reached by
    [input]: it returns [true] after calling the registered member, first
    thing, on the module, a member with data being handed the payload as
    it came. *)
Theorem input_after_register (name data : string) (f : callback)
    (g : callback_data) (m : module) :
  let m1 := set_router (register_action name f (m_router m)) m in
  let m2 := set_router (register_action_with_data name g (m_router m)) m in
  input name data m1
    = Returned (true, state (call_member f m1),
                EvMember f :: trace (call_member f m1)) /\
  input name data m2
    = Returned (true, state (call_member_data g data m2),
                EvMemberData g data :: trace (call_member_data g data m2)).
Proof.
  intros m1 m2. split.
  - rewrite (input_registered name data (entry_without f) m1)
      by apply lookup_insert_eq.
    unfold dispatch. rewrite run_emit_then. reflexivity.
  - rewrite (input_registered name data (entry_with g) m2)
      by apply lookup_insert_eq.
    unfold dispatch. rewrite run_emit_then. reflexivity.
Qed.

(** X5.  The payload has no effect on an action registered without data:
    [input] does the same whatever data comes with the name. *)
Theorem input_ignores_payload (name data data' : string) (f : callback)
    (m : module) :
  callbacks (m_router m) !! name = Some (entry_without f) ->
  input name data m = input name data' m.
Proof.
  intros H.
  rewrite (input_registered name data _ m H).
  rewrite (input_registered name data' _ m H). reflexivity.
Qed.

End Router.

(** * Further properties of the lifecycle *)

Section Lifecycle.

Context {T : ImplTypes} {I : ModuleImpl T} {K : Markup}.

Lemma run_modify_then {B : Type} (f : module -> module) (k : unit -> M B)
    (m : module) (r : B * module * list event) :
  k tt (f m) = r -> (modify f ≫= k) m = r.
Proof.
  intros <-. unfold mbind, M_bind, bind, modify.
  destruct (k tt (f m)) as [[b m2] e2]. reflexivity.
Qed.

Lemma stop_idle (m : module) :
  m_enabled m = false -> stop m = (tt, m, []).
Proof.
  intros H. unfold stop. apply run_get. rewrite H. reflexivity.
Qed.

Lemma stop_running_run (m : module) :
  m_enabled m = true ->
  let rw := impl_wakeup (set_enabled false m) in
  let rt := impl_teardown (state rw) in
  stop m =
    (tt, state rt,
     EvLog Info (m_name m +:+ ": Stopping")
       :: EvLock [m_buildlock; m_updatelock]
       :: (EvCall Wakeup :: trace rw)
       ++ (EvCall Teardown :: trace rt)
       ++ [EvEmit check_state; EvUnlock m_updatelock; EvUnlock m_buildlock]).
Proof.
  intros H rw rt. unfold stop. apply run_get. rewrite H. cbn [negb].
  apply run_emit, run_modify_then, run_emit.
  eapply run_bind_eq; [apply run_emit_then|].
  eapply run_bind_eq; [apply run_emit_then|].
  reflexivity.
Qed.

(** X6.  [stop] on a running module clears the running flag before anything
    else happens to the module: the [wakeup] of the implementation runs on
    the module with the flag cleared and [teardown] on what [wakeup] leaves.
    Both run once, in this order, after both locks are taken together;
    [check_state] is emitted after them, and the locks are released last. *)
Theorem stop_running_order (m : module) :
  m_enabled m = true ->
  let rw := impl_wakeup (set_enabled false m) in
  let rt := impl_teardown (state rw) in
  state (stop m) = state rt /\
  trace (stop m) =
    [EvLog Info (m_name m +:+ ": Stopping");
     EvLock [m_buildlock; m_updatelock]; EvCall Wakeup]
      ++ trace rw ++ [EvCall Teardown] ++ trace rt
      ++ [EvEmit check_state; EvUnlock m_updatelock; EvUnlock m_buildlock].
Proof.
  intros H rw rt. rewrite (stop_running_run m H).
  split; [reflexivity|].
  unfold trace at 1. cbn [snd app]. reflexivity.
Qed.

(** X7.  When the [wakeup] and [teardown] of the implementation leave the
    running flag of a stopped module alone, a module is not running after
    [stop], whatever it was before, and a second [stop] does nothing. *)
Theorem stop_then_stop (m : module) :
  (forall m', m_enabled m' = false ->
     m_enabled (state (impl_wakeup m')) = false) ->
  (forall m', m_enabled m' = false ->
     m_enabled (state (impl_teardown m')) = false) ->
  m_enabled (state (stop m)) = false /\
  stop (state (stop m)) = (tt, state (stop m), []).
Proof.
  intros Hw Ht.
  assert (Hs : m_enabled (state (stop m)) = false).
  { destruct (m_enabled m) eqn:H.
    - rewrite (stop_running_run m H). unfold state at 1. cbn [fst snd].
      apply Ht. apply Hw. reflexivity.
    - rewrite (stop_idle m H). exact H. }
  split; [exact Hs|]. apply stop_idle. exact Hs.
Qed.

(** X8.  [halt] on a module that is not running logs the error and the
    notice and does nothing else: no teardown, no [check_state], and the
    module as it was. *)
Theorem halt_when_stopped (error_message : string) (m : module) :
  m_enabled m = false ->
  halt error_message m =
    (tt, m,
     [EvLog Err (m_name m +:+ ": " +:+ error_message);
      EvLog Notice ("Stopping '" +:+ m_name m +:+ "'...")]).
Proof.
  intros H. unfold halt. apply run_get. apply run_emit, run_emit.
  apply stop_idle. exact H.
Qed.

End Lifecycle.

(** * Further properties of the output cache *)

Section CacheMore.

Context {T : ImplTypes} {I : ModuleImpl T} {K : Markup}.

(** X9.  Whatever the module was, after [contents] the dirty flag is clear
    and the cache holds the string that was returned. *)
Theorem contents_leaves_clean (m : module) :
  m_changed (state (contents m)) = false /\
  m_cache (state (contents m)) = result (contents m).
Proof.
  destruct (m_changed m) eqn:H.
  - rewrite (contents_dirty m H). split; reflexivity.
  - rewrite (contents_clean m H). split; [exact H|reflexivity].
Qed.

Lemma cached_empty (out : string) :
  cached out = EmptyString <-> out = EmptyString.
Proof.
  unfold cached. destruct out as [|a out]; cbn [Str.empty].
  - split; reflexivity.
  - rewrite StrFacts.append_cons. split; discriminate.
Qed.

(** X10.  A rebuild leaves the builder empty, and returns the empty string
    exactly when the render returned it: the reset marker is added to
    non-empty output only, never cached on its own. *)
Theorem contents_rebuild (m : module) :
  m_changed m = true ->
  m_builder (state (contents m)) = EmptyString /\
  (result (contents m) = EmptyString
     <-> result (cast_get_output m) = EmptyString) /\
  (result (cast_get_output m) <> EmptyString ->
     result (contents m) = result (cast_get_output m) +:+ control_markup R).
Proof.
  intros H. rewrite (contents_dirty m H).
  unfold state at 1, result at 1 4. cbn [fst snd].
  split; [reflexivity|]. split; [apply cached_empty|].
  intros Hne. unfold cached.
  destruct (result (cast_get_output m)); [contradiction|reflexivity].
Qed.

End CacheMore.

(** * Further properties of a render *)

Section RenderMore.

Context {T : ImplTypes} {I : ModuleImpl T} {K : Markup}.

Lemma ltrim_front (s : string) :
  Str.is_char " " (Str.front (Str.ltrim s)) = false.
Proof.
  induction s as [|a s IH]; [reflexivity|].
  cbn [Str.ltrim]. destruct (Ascii.eqb a " ") eqn:E; [exact IH|].
  cbn [Str.front Str.is_char]. exact E.
Qed.

Lemma take_not_empty (start : nat) (v : string) :
  0 < start -> start < String.length v -> Str.take start v <> EmptyString.
Proof.
  intros H0 Hlt E.
  pose proof (StrFacts.length_take v start) as Hl. rewrite E in Hl.
  cbn [String.length] in Hl. lia.
Qed.

(** One turn of the loop, as seen in the trace and on the module. *)
Lemma turn_facts (fmt : format) (mingap : nat) (l : locals) (m : module)
    (start end_ : nat) :
  fake_no_tag_built l = false ->
  Str.find "<" 0 (value' l) = Some start ->
  Str.find ">" start (value' l) = Some end_ ->
  let r1 := after_literal start l m in
  let tag := Str.take (end_ - start + 1) (Str.erase start (value' l)) in
  let r2 := render_tag fmt mingap tag (result r1) (state r1) in
  (trace r1 = [] \/
   exists text, trace r1 = [EvNode text] /\ text <> EmptyString /\
     (no_tag_built l = true -> Str.is_char " " (Str.front text) = false)) /\
  (exists ok,
     trace r2 = spacer (spacing fmt) (no_tag_built l)
                  ++ EvBuild tag ok :: remover mingap (no_tag_built l) ok /\
     no_tag_built (next_locals fmt mingap start end_ l m)
       = no_tag_built l && negb ok) /\
  exists b, state r2 = set_builder b m.
Proof.
  intros Hf Hs He r1 tag r2.
  destruct (StrFacts.find_bounds _ _ _ _ Hs) as [_ Hlt].
  assert (Hl1 : result r1 = set_value (Str.erase start (value' l)) l)
    by (apply after_literal_locals; exact Hf).
  assert (Hf1 : fake_no_tag_built (result r1) = false)
    by (rewrite Hl1; exact Hf).
  assert (Hn1 : no_tag_built (result r1) = no_tag_built l)
    by (rewrite Hl1; reflexivity).
  pose proof (render_tag_run fmt mingap tag (result r1) (state r1) Hf1) as E2.
  cbv zeta in E2. fold r2 in E2. rewrite Hn1 in E2.
  assert (H1 : (trace r1 = [] /\ state r1 = m) \/
               exists text, (trace r1 = [EvNode text] /\
                 state r1 = set_builder (Builder.node text (m_builder m)) m) /\
                 text <> EmptyString /\
                 (no_tag_built l = true ->
                    Str.is_char " " (Str.front text) = false)).
  { subst r1. unfold after_literal.
    destruct (Nat.ltb 0 start) eqn:E0; [|left; split; reflexivity].
    apply Nat.ltb_lt in E0.
    rewrite render_literal_run by exact Hf.
    destruct (no_tag_built l) eqn:En; cbn [andb].
    - destruct (Str.empty (Str.ltrim (Str.substr 0 start (value' l)))) eqn:Ee;
        [left; split; reflexivity|].
      right. eexists. split; [split; reflexivity|]. split.
      + intros E. rewrite E in Ee. discriminate.
      + intros _. apply ltrim_front.
    - right. eexists. split; [split; reflexivity|]. split; [|discriminate].
      unfold Str.substr. rewrite StrFacts.erase_0.
      apply take_not_empty; assumption. }
  split; [|split].
  - destruct H1 as [[H1 _]|(text & [H1 _] & Hne & Hsp)]; [left; exact H1|].
    right. exists text. auto.
  - exists (tag_built (result r2)). split.
    + rewrite E2. unfold trace, result. cbn [fst snd tag_built].
      unfold spacer, remover.
      destruct (no_tag_built l); reflexivity.
    + unfold next_locals. fold r1. fold tag. fold r2. rewrite E2. reflexivity.
  - assert (Hb1 : exists b1, state r1 = set_builder b1 m).
    { destruct H1 as [[_ H1]|(text & [_ H1] & _)]; rewrite H1.
      - exists (m_builder m). symmetry. apply set_builder_id.
      - eexists. reflexivity. }
    destruct Hb1 as [b1 Hb1].
    rewrite E2. unfold state at 1. cbn [fst snd].
    rewrite Hb1. unfold spaced.
    destruct (no_tag_built l); cbn [negb andb];
      repeat match goal with
             | |- context [if ?c then _ else _] => destruct c
             end;
      eexists; reflexivity.
Qed.

Lemma render_loop_frame (fmt : format) (mingap : nat) :
  forall fuel l m,
    fake_no_tag_built l = false ->
    String.length (value' l) < fuel ->
    exists b, state (render_loop fuel fmt mingap l m) = set_builder b m.
Proof.
  apply (render_loop_ind fmt mingap
    (fun l m r => exists b, state r = set_builder b m)).
  - intros l m _ _. exists (m_builder m). symmetry. apply set_builder_id.
  - intros l m start end_ r3 Hf Hs He r1 tag r2 [b3 H3].
    destruct (turn_facts fmt mingap l m start end_ Hf Hs He)
      as (_ & _ & b2 & H2).
    fold r1 tag r2 in H2.
    exists b3. unfold state at 1. cbn [fst snd].
    rewrite H3, H2. reflexivity.
Qed.

Lemma get_output_state (m : module) :
  exists b, state (get_output m) = set_builder b m.
Proof.
  destruct (get_output_run m) as (l' & _ & _ & _ & E).
  cbv zeta in E. rewrite E. unfold state at 1. cbn [fst snd].
  destruct (render_loop_frame (selected_format m)
              (Nat.max 1 (spacing (selected_format m)))
              (render_fuel (value (selected_format m)))
              (initial_locals (selected_format m)) m eq_refl) as [b Hb].
  { unfold render_fuel, initial_locals. cbn [value']. lia. }
  fold (loop_run m) in Hb. rewrite Hb. eexists. reflexivity.
Qed.

(** X11.  A render touches nothing of the module but its builder: the
    running flag, the dirty flag, the cache, the router, the formats and
    the data of the implementation are after [get_output] what they were
    before. *)
Theorem get_output_frame (m : module) :
  state (get_output m) = set_builder (m_builder (state (get_output m))) m.
Proof.
  destruct (get_output_state m) as [b Hb]. rewrite Hb. reflexivity.
Qed.

(** X12.  A template in which no tag span is found, be it empty, free of
    ['<'] or with a ['<'] that no ['>'] follows, is rendered without any
    call of [build]: it is appended whole and untrimmed, leading spaces
    included, or not at all when it is empty. *)
Theorem get_output_without_tags (m : module) :
  next_span (value (selected_format m)) = None ->
  let v := value (selected_format m) in
  trace (get_output m)
    = [EvLock [m_buildlock]; EvCall GetFormat]
        ++ (if Str.empty v then [] else [EvAppend v])
        ++ [EvFlush; EvDecorate (m_builder m +:+ v); EvUnlock m_buildlock].
Proof.
  intros Hn v.
  assert (El : loop_run m = (Some (initial_locals (selected_format m)), m, [])).
  { unfold loop_run, render_fuel. apply render_loop_exit. exact Hn. }
  destruct (get_output_run m) as (l' & Hr & _ & _ & E).
  cbv zeta in E. rewrite E. rewrite El in Hr |- *.
  injection Hr as <-. reflexivity.
Qed.

Lemma built_tags_app (l1 l2 : list event) :
  built_tags (l1 ++ l2) = built_tags l1 ++ built_tags l2.
Proof. unfold built_tags. apply flat_map_app. Qed.

Lemma built_tags_turn (s g : nat) (ntb ok : bool) (tag : string) :
  built_tags (spacer s ntb ++ EvBuild tag ok :: remover g ntb ok) = [tag].
Proof. unfold spacer, remover. destruct ntb, ok; reflexivity. Qed.

Lemma render_loop_tags (fmt : format) (mingap : nat) :
  forall fuel l m,
    fake_no_tag_built l = false ->
    String.length (value' l) < fuel ->
    forall fuel', String.length (value' l) < fuel' ->
      built_tags (trace (render_loop fuel fmt mingap l m))
        = spans fuel' (value' l).
Proof.
  apply (render_loop_ind fmt mingap
    (fun l m r => forall fuel', String.length (value' l) < fuel' ->
       built_tags (trace r) = spans fuel' (value' l))).
  - intros l m _ Hx fuel' Hlt. destruct fuel' as [|fuel']; [lia|].
    cbn [spans]. rewrite Hx. reflexivity.
  - intros l m start end_ r3 Hf Hs He r1 tag r2 IH fuel' Hlt.
    destruct fuel' as [|fuel']; [lia|].
    destruct (turn_facts fmt mingap l m start end_ Hf Hs He)
      as (H1 & (ok & H2 & _) & _).
    fold r1 tag r2 in H1, H2.
    destruct (next_locals_run fmt mingap start end_ l m Hf Hs He)
      as (_ & Hv & Hlen).
    cbn [spans]. unfold next_span. rewrite Hs, He. fold tag.
    unfold trace at 1. cbn [snd].
    rewrite !built_tags_app, H2, built_tags_turn.
    rewrite <- Hv, <- IH by lia.
    destruct H1 as [->|(text & -> & _)]; reflexivity.
Qed.

(** X13.  [build] is called once for every tag span of the template, in
    the order of the template, whichever of the calls succeed: the tags
    handed to it are the spans that scanning the template alone finds. *)
Theorem get_output_builds_every_tag (m : module) :
  built_tags (trace (get_output m)) = tags (value (selected_format m)).
Proof.
  destruct (get_output_run m) as (l' & _ & _ & _ & E).
  cbv zeta in E. rewrite E. unfold trace at 1. cbn [snd].
  change (?a :: ?b :: ?l ++ ?t) with ([a; b] ++ l ++ t).
  rewrite !built_tags_app.
  unfold loop_run, tags.
  rewrite (render_loop_tags (selected_format m) _
             (render_fuel (value (selected_format m)))
             (initial_locals (selected_format m)) m eq_refl)
    with (fuel' := render_fuel (value (selected_format m)));
    try (unfold render_fuel, initial_locals; cbn [value']; lia).
  cbn [initial_locals value'].
  destruct (Str.empty (value' l')); cbn; rewrite app_nil_r; reflexivity.
Qed.

Lemma trimmed_node (text : string) (rest : list event) :
  trimmed_until_built (EvNode text :: rest)
    = negb (Str.empty text) && negb (Str.is_char " " (Str.front text))
        && trimmed_until_built rest.
Proof. reflexivity. Qed.

Lemma render_loop_trimmed (fmt : format) (mingap : nat) :
  forall fuel l m,
    fake_no_tag_built l = false ->
    String.length (value' l) < fuel ->
    no_tag_built l = true ->
    forall tl, trimmed_until_built tl = true ->
      trimmed_until_built (trace (render_loop fuel fmt mingap l m) ++ tl) = true.
Proof.
  apply (render_loop_ind fmt mingap
    (fun l m r => no_tag_built l = true ->
       forall tl, trimmed_until_built tl = true ->
         trimmed_until_built (trace r ++ tl) = true)).
  - intros l m _ _ _ tl Htl. exact Htl.
  - intros l m start end_ r3 Hf Hs He r1 tag r2 IH Hn tl Htl.
    destruct (turn_facts fmt mingap l m start end_ Hf Hs He)
      as (H1 & (ok & H2 & Hn3) & _).
    fold r1 tag r2 in H1, H2.
    rewrite Hn in H2, Hn3. cbn [andb] in Hn3.
    unfold trace at 1. cbn [snd]. rewrite H2.
    unfold spacer, remover. rewrite andb_false_r. cbn [app].
    rewrite <- !app_assoc. cbn [app].
    assert (Hrest : trimmed_until_built (EvBuild tag ok :: trace r3 ++ tl) = true).
    { destruct ok; [reflexivity|]. cbn [trimmed_until_built].
      apply IH; [exact Hn3|exact Htl]. }
    destruct H1 as [->|(text & -> & Hne & Hsp)]; [exact Hrest|].
    cbn [app]. rewrite trimmed_node, Hrest, (Hsp Hn).
    destruct text; [contradiction|reflexivity].
Qed.

(** X14.  Until a tag has built, the literal text handed to [node] is
    never empty and never starts with a space: what precedes the first
    output of a render is trimmed on the left, and text of spaces only is
    dropped. *)
Theorem get_output_trims_leading_text (m : module) :
  trimmed_until_built (trace (get_output m)) = true.
Proof.
  destruct (get_output_run m) as (l' & _ & _ & _ & E).
  cbv zeta in E. rewrite E. unfold trace at 1. cbn [snd app trimmed_until_built].
  apply (render_loop_trimmed (selected_format m) _
           (render_fuel (value (selected_format m)))
           (initial_locals (selected_format m)) m eq_refl).
  - unfold render_fuel, initial_locals. cbn [value']. lia.
  - reflexivity.
  - destruct (Str.empty (value' l')); reflexivity.
Qed.

Lemma render_loop_no_spacing (fmt : format) (mingap : nat) :
  forall fuel l m,
    fake_no_tag_built l = false ->
    String.length (value' l) < fuel ->
    no_tag_built l = true ->
    has_built (trace (render_loop fuel fmt mingap l m)) = false ->
    Forall (fun e => is_spacing e = false)
      (trace (render_loop fuel fmt mingap l m)).
Proof.
  apply (render_loop_ind fmt mingap
    (fun l m r => no_tag_built l = true -> has_built (trace r) = false ->
       Forall (fun e => is_spacing e = false) (trace r))).
  - intros l m _ _ _ _. constructor.
  - intros l m start end_ r3 Hf Hs He r1 tag r2 IH Hn Hb.
    destruct (turn_facts fmt mingap l m start end_ Hf Hs He)
      as (H1 & (ok & H2 & Hn3) & _).
    fold r1 tag r2 in H1, H2.
    rewrite Hn in H2, Hn3. cbn [andb] in Hn3.
    unfold trace at 1 in Hb. unfold trace at 1. cbn [snd] in *.
    rewrite H2 in Hb |- *. unfold spacer, remover in *.
    rewrite andb_false_r in Hb |- *. cbn [app] in *.
    rewrite !has_built_app in Hb.
    apply orb_false_iff in Hb as [_ Hb]. cbn [has_built existsb] in Hb.
    destruct ok; [discriminate|]. cbn [orb] in Hb.
    apply Forall_app. split.
    + destruct H1 as [->|(text & -> & _)]; repeat constructor.
    + constructor; [reflexivity|]. apply IH; [exact Hn3|exact Hb].
Qed.

(** X15.  A render in which no tag builds makes no call that adds or
    removes blank padding: neither [space] nor [remove_trailing_space]. *)
Theorem get_output_no_padding_without_tag (m : module) :
  has_built (trace (get_output m)) = false ->
  Forall (fun e => is_spacing e = false) (trace (get_output m)).
Proof.
  destruct (get_output_run m) as (l' & _ & _ & _ & E).
  cbv zeta in E. rewrite E. unfold trace at 1 2. cbn [snd].
  change (?a :: ?b :: ?l ++ ?t) with ([a; b] ++ l ++ t).
  rewrite !has_built_app. intros Hb.
  apply orb_false_iff in Hb as [_ Hb]. apply orb_false_iff in Hb as [Hb _].
  apply Forall_app. split; [repeat constructor|].
  apply Forall_app. split.
  - apply (render_loop_no_spacing (selected_format m) _
             (render_fuel (value (selected_format m)))
             (initial_locals (selected_format m)) m eq_refl).
    + unfold render_fuel, initial_locals. cbn [value']. lia.
    + reflexivity.
    + exact Hb.
  - destruct (Str.empty (value' l')); repeat constructor.
Qed.

Lemma render_loop_Forall (fmt : format) (mingap : nat) (Q : event -> Prop) :
  (forall text, text <> EmptyString -> Q (EvNode text)) ->
  Q (EvSpace (spacing fmt)) ->
  Q (EvRemoveTrailingSpace mingap) ->
  (forall tag ok, Q (EvBuild tag ok)) ->
  forall fuel l m,
    fake_no_tag_built l = false ->
    String.length (value' l) < fuel ->
    Forall Q (trace (render_loop fuel fmt mingap l m)).
Proof.
  intros Qn Qs Qr Qb.
  apply (render_loop_ind fmt mingap (fun l m r => Forall Q (trace r))).
  - intros l m _ _. constructor.
  - intros l m start end_ r3 Hf Hs He r1 tag r2 IH.
    destruct (turn_facts fmt mingap l m start end_ Hf Hs He)
      as (H1 & (ok & H2 & _) & _).
    fold r1 tag r2 in H1, H2.
    unfold trace at 1. cbn [snd]. rewrite H2.
    apply Forall_app. split.
    + destruct H1 as [->|(text & -> & Hne & _)]; repeat constructor.
      apply Qn. exact Hne.
    + apply Forall_app. split; [|exact IH].
      unfold spacer, remover.
      destruct (no_tag_built l), ok; repeat constructor; auto.
Qed.

Lemma get_output_Forall (m : module) (Q : event -> Prop) :
  (forall text, text <> EmptyString -> Q (EvNode text)) ->
  (forall text, text <> EmptyString -> Q (EvAppend text)) ->
  Q (EvSpace (spacing (selected_format m))) ->
  Q (EvRemoveTrailingSpace (Nat.max 1 (spacing (selected_format m)))) ->
  (forall tag ok, Q (EvBuild tag ok)) ->
  (forall locks, Q (EvLock locks)) -> (forall lock, Q (EvUnlock lock)) ->
  Q (EvCall GetFormat) -> Q EvFlush -> (forall c, Q (EvDecorate c)) ->
  Forall Q (trace (get_output m)).
Proof.
  intros Qn Qa Qs Qr Qb Ql Qu Qf Qfl Qd.
  destruct (get_output_run m) as (l' & _ & _ & _ & E).
  cbv zeta in E. rewrite E. unfold trace at 1. cbn [snd].
  constructor; [apply Ql|]. constructor; [exact Qf|].
  apply Forall_app. split.
  - apply (render_loop_Forall (selected_format m) _ Q Qn Qs Qr Qb
             (render_fuel (value (selected_format m)))
             (initial_locals (selected_format m)) m eq_refl).
    unfold render_fuel, initial_locals. cbn [value']. lia.
  - destruct (Str.empty (value' l')) eqn:Ee; repeat constructor; auto.
    apply Qa. intros E'. rewrite E' in Ee. discriminate.
Qed.

(** X16.  Every spacer of a render has the width of the format's spacing,
    and every removal is asked with [max 1 spacing], which is never 0. *)
Theorem get_output_padding_widths (m : module) :
  Forall (padding_of (spacing (selected_format m))) (trace (get_output m)) /\
  1 <= Nat.max 1 (spacing (selected_format m)).
Proof.
  split; [|lia].
  apply get_output_Forall; intros; cbn [padding_of]; auto.
Qed.

(** X17.  The builder is never handed empty text: every [node] and every
    [append] of a render carries at least one character. *)
Theorem get_output_gives_text (m : module) :
  Forall text_given (trace (get_output m)).
Proof.
  apply get_output_Forall; intros; cbn [text_given]; auto.
Qed.

Lemma render_calls_none (l : list event) :
  Forall (fun e => e <> EvCall GetOutput) l -> render_calls l = 0.
Proof.
  unfold render_calls. induction 1 as [|e l He _ IH]; [reflexivity|].
  cbn [List.filter]. destruct e as [| | | | |h| | | | | | | | | |];
    try exact IH.
  destruct h; try exact IH. contradiction.
Qed.

Lemma render_calls_app (l1 l2 : list event) :
  render_calls (l1 ++ l2) = render_calls l1 + render_calls l2.
Proof. unfold render_calls. rewrite List.filter_app. apply length_app. Qed.

Lemma get_output_no_render_call (m : module) :
  render_calls (trace (get_output m)) = 0.
Proof.
  apply render_calls_none. apply get_output_Forall; intros; discriminate.
Qed.

Lemma cast_get_output_base (m : module) :
  impl_get_output = None ->
  cast_get_output m
    = (result (get_output m), state (get_output m),
       EvCall GetOutput :: trace (get_output m)).
Proof.
  intros H. unfold cast_get_output. rewrite H. apply run_emit_then.
Qed.

(** X18.  A second [broadcast] leaves the module as the first one left it
    and only notifies again; for an implementation that keeps the
    [get_output] of the base, the [contents] that follows the two renders
    once. *)
Theorem broadcasts_render_once (m : module) :
  impl_get_output = None ->
  let m1 := state (broadcast m) in
  let m2 := state (broadcast m1) in
  m2 = m1 /\
  trace (broadcast m1) = [EvEmit notify_change] /\
  render_calls (trace (contents m2)) = 1.
Proof.
  intros H m1 m2. split; [reflexivity|]. split; [reflexivity|].
  rewrite (contents_dirty m2 eq_refl). unfold trace at 1. cbn [snd].
  rewrite (cast_get_output_base m2 H).
  unfold trace at 1, result at 1. cbn [fst snd].
  change (?a :: (?b :: ?l) ++ ?t) with ([a; b] ++ l ++ t).
  rewrite !render_calls_app, get_output_no_render_call.
  match goal with
  | |- context [if ?c then _ else _] => destruct c
  end; reflexivity.
Qed.

(** X19.  For an implementation that keeps the [get_output] of the base,
    [contents] changes nothing of the module but the cache, the dirty flag
    and the builder: the running flag, the action table, the name, the
    formats and the data of the implementation stay as they were. *)
Theorem contents_frame (m : module) :
  impl_get_output = None ->
  let m' := state (contents m) in
  m_enabled m' = m_enabled m /\ m_router m' = m_router m /\
  m_name m' = m_name m /\ m_formatter m' = m_formatter m /\
  m_impl m' = m_impl m.
Proof.
  intros H m'. subst m'. destruct (m_changed m) eqn:Hc.
  - rewrite (contents_dirty m Hc). unfold state at 1 2 3 4 5. cbn [fst snd].
    rewrite (cast_get_output_base m H). unfold state. cbn [fst snd].
    destruct (get_output_state m) as [b Hb]. unfold state in Hb. rewrite Hb.
    repeat split; reflexivity.
  - rewrite (contents_clean m Hc). repeat split; reflexivity.
Qed.

(** X20.  The loop of [get_output] terminates on every template: within
    the fuel [S (length template)], and with the same result for any larger
    fuel, it is left with a rest of the template, what remains when some
    number of leading characters is erased, in which no further tag span is
    found.  The branch [tag.empty()], which would repeat a turn unchanged,
    is never taken. *)
Theorem get_output_loop_terminates (m : module) :
  let fmt := selected_format m in
  exists l',
    result (loop_run m) = Some l' /\
    next_span (value' l') = None /\
    (exists n, value' l' = Str.erase n (value fmt)) /\
    forall fuel, render_fuel (value fmt) <= fuel ->
      render_loop fuel fmt (Nat.max 1 (spacing fmt)) (initial_locals fmt) m
        = loop_run m.
Proof.
  intros fmt.
  destruct (render_loop_finishes fmt (Nat.max 1 (spacing fmt))
              (render_fuel (value fmt)) (initial_locals fmt) m eq_refl)
    as (l' & Hr & Hx & Hn).
  { unfold render_fuel, initial_locals. cbn [value']. lia. }
  exists l'. split; [exact Hr|]. split; [exact Hx|]. split; [exact Hn|].
  intros fuel Hle.
  apply (render_loop_enough fmt _ (initial_locals fmt) m eq_refl fuel Hle).
Qed.

Lemma has_built_turn (s g : nat) (ntb ok : bool) (tag : string) :
  has_built (spacer s ntb ++ EvBuild tag ok :: remover g ntb ok) = ok.
Proof. unfold spacer, remover. destruct ntb, ok; reflexivity. Qed.

Lemma render_loop_flags (fmt : format) (mingap : nat) :
  forall fuel l m,
    fake_no_tag_built l = false ->
    String.length (value' l) < fuel ->
    forall l', result (render_loop fuel fmt mingap l m) = Some l' ->
      fake_no_tag_built l' = false /\
      no_tag_built l'
        = no_tag_built l
            && negb (has_built (trace (render_loop fuel fmt mingap l m))).
Proof.
  apply (render_loop_ind fmt mingap
    (fun l m r => forall l', result r = Some l' ->
       fake_no_tag_built l' = false /\
       no_tag_built l' = no_tag_built l && negb (has_built (trace r)))).
  - intros l m Hf _ l' [= <-]. split; [exact Hf|].
    cbn. rewrite andb_true_r. reflexivity.
  - intros l m start end_ r3 Hf Hs He r1 tag r2 IH l' Hr.
    destruct (IH l' Hr) as [Hf' Hn'].
    destruct (turn_facts fmt mingap l m start end_ Hf Hs He)
      as (H1 & (ok & H2 & Hn3) & _).
    fold r1 tag r2 in H1, H2.
    split; [exact Hf'|].
    unfold trace at 1. cbn [snd].
    rewrite !has_built_app, H2, has_built_turn, Hn', Hn3.
    assert (Hb1 : has_built (trace r1) = false)
      by (destruct H1 as [->|(text & -> & _)]; reflexivity).
    rewrite Hb1. cbn [orb].
    destruct (no_tag_built l), ok, (has_built (trace r3)); reflexivity.
Qed.

(** X21.  When the loop of [get_output] is left, [fake_no_tag_built] is
    false, as it has been all along, and [no_tag_built] is still set
    exactly when none of the calls of [build] succeeded: only a tag that
    builds clears it. *)
Theorem get_output_flags_at_exit (m : module) (l' : locals) :
  result (loop_run m) = Some l' ->
  fake_no_tag_built l' = false /\
  no_tag_built l' = negb (has_built (trace (loop_run m))).
Proof.
  intros Hr.
  apply (render_loop_flags (selected_format m)
           (Nat.max 1 (spacing (selected_format m)))
           (render_fuel (value (selected_format m)))
           (initial_locals (selected_format m)) m eq_refl); [|exact Hr].
  unfold render_fuel, initial_locals. cbn [value']. lia.
Qed.

Lemma render_loop_tag_shape (fmt : format) (mingap : nat) :
  forall fuel l m,
    fake_no_tag_built l = false ->
    String.length (value' l) < fuel ->
    Forall tag_shaped (trace (render_loop fuel fmt mingap l m)).
Proof.
  apply (render_loop_ind fmt mingap (fun l m r => Forall tag_shaped (trace r))).
  - intros l m _ _. constructor.
  - intros l m start end_ r3 Hf Hs He r1 tag r2 IH.
    destruct (turn_facts fmt mingap l m start end_ Hf Hs He)
      as (H1 & (ok & H2 & _) & _).
    fold r1 tag r2 in H1, H2.
    destruct (TagFacts.tag_shape _ _ _ Hs He) as (Hlen & _ & Hfront & Hback).
    fold tag in Hlen, Hfront, Hback.
    assert (Hlt : start < end_).
    { destruct (StrFacts.find_bounds _ _ _ _ He) as [Hle _].
      destruct (TagFacts.find_erase _ _ _ _ Hs) as [q1 E1].
      destruct (TagFacts.find_erase _ _ _ _ He) as [q2 E2].
      destruct (Nat.eq_dec start end_) as [->|Hne]; [|lia].
      rewrite E1 in E2. discriminate. }
    unfold trace at 1. cbn [snd]. rewrite H2.
    apply Forall_app. split.
    + destruct H1 as [->|(text & -> & _)]; repeat constructor.
    + apply Forall_app. split; [|exact IH].
      apply Forall_app. split.
      * unfold spacer. destruct (no_tag_built l); repeat constructor.
      * constructor.
        -- cbn [tag_shaped]. split; [exact Hfront|]. split; [exact Hback|lia].
        -- unfold remover. destruct (negb ok && negb (no_tag_built l));
             repeat constructor.
Qed.

End RenderMore.

(** * The further properties on concrete modules *)

Section ConcreteMore.

(** X5 on a module with the action ["toggle"] registered without data. *)
Lemma input_ignores_payload_witness :
  let m := label_state "" 0 {["toggle" := @entry_without label_types 7]}
             (texts_of []) in
  callbacks (m_router m) !! "toggle" = Some (@entry_without label_types 7) /\
  input "toggle" "payload" m = input "toggle" "" m.
Proof.
  intros m.
  assert (H : callbacks (m_router m) !! "toggle"
              = Some (@entry_without label_types 7))
    by apply lookup_singleton_eq.
  split; [exact H|].
  apply (@input_ignores_payload label_types label_module
           "toggle" "payload" "" 7 m H).
Defined.

(** X6 on a running module with the [wakeup] and [teardown] of the base. *)
Lemma stop_running_order_witness :
  let m := label_state "<x>" 1 ∅ (texts_of []) in
  m_enabled m = true /\
  state (stop m) = set_enabled false m /\
  trace (stop m) =
    [EvLog Info "module/label: Stopping";
     EvLock [m_buildlock; m_updatelock]; EvCall Wakeup;
     EvLog Trace "module/label: Release sleep lock"; EvNotifyAll;
     EvCall Teardown;
     EvEmit check_state; EvUnlock m_updatelock; EvUnlock m_buildlock].
Proof.
  intros m. split; [reflexivity|].
  exact (stop_running_order m eq_refl).
Defined.

(** X7 on the same module: its hooks leave the running flag alone. *)
Lemma stop_then_stop_witness :
  let m := label_state "<x>" 1 ∅ (texts_of []) in
  m_enabled (state (stop m)) = false /\
  stop (state (stop m)) = (tt, state (stop m), []).
Proof.
  intros m. apply (stop_then_stop m).
  - intros m' H. exact H.
  - intros m' H. exact H.
Defined.

(** X8 on a module that has been stopped. *)
Lemma halt_when_stopped_witness :
  let m := set_enabled false (label_state "<x>" 1 ∅ (texts_of [])) in
  halt "no data" m =
    (tt, m,
     [EvLog Err "module/label: no data";
      EvLog Notice "Stopping 'module/label'..."]).
Proof.
  intros m. apply (halt_when_stopped "no data" m). reflexivity.
Defined.

(** X10 on a dirty module whose render is ["X"]. *)
Lemma contents_rebuild_witness :
  let m := label_state "<x>" 1 ∅ (texts_of [("<x>", "X")]) in
  m_changed m = true /\
  m_builder (state (contents m)) = "" /\
  result (cast_get_output m) <> "" /\
  result (contents m) = "X%{PR}".
Proof.
  intros m.
  destruct (contents_rebuild m eq_refl) as (Hb & _ & Hm).
  assert (Hne : result (cast_get_output m) <> "") by (vm_compute; discriminate).
  split; [reflexivity|]. split; [exact Hb|]. split; [exact Hne|].
  rewrite (Hm Hne). vm_compute. reflexivity.
Defined.

(** X12 on a template of text only, with spaces in front. *)
Lemma get_output_without_tags_witness :
  let m := label_state "  idle >" 1 ∅ (texts_of []) in
  next_span (value (selected_format m)) = None /\
  trace (get_output m)
    = [EvLock [m_buildlock]; EvCall GetFormat; EvAppend "  idle >";
       EvFlush; EvDecorate "  idle >"; EvUnlock m_buildlock].
Proof.
  intros m. split; [reflexivity|].
  exact (get_output_without_tags m eq_refl).
Defined.

(** X15 on ["a<x> <y>"] with no tag that builds. *)
Lemma get_output_no_padding_without_tag_witness :
  let m := label_state "a<x> <y>" 2 ∅ (texts_of []) in
  has_built (trace (get_output m)) = false /\
  Forall (fun e => is_spacing e = false) (trace (get_output m)).
Proof.
  intros m.
  assert (H : has_built (trace (get_output m)) = false)
    by (vm_compute; reflexivity).
  split; [exact H|].
  exact (get_output_no_padding_without_tag m H).
Defined.

(** X18 on a module that keeps the [get_output] of the base. *)
Lemma broadcasts_render_once_witness :
  let m := label_state "<x>" 1 ∅ (texts_of [("<x>", "X")]) in
  @impl_get_output label_types label_module = None /\
  render_calls
    (trace (contents (state (broadcast (state (broadcast m)))))) = 1.
Proof.
  intros m. split; [reflexivity|].
  exact (proj2 (proj2 (broadcasts_render_once m eq_refl))).
Defined.

(** X19 on a running module with an action registered. *)
Lemma contents_frame_witness :
  let m := label_state "<x>" 1 {["toggle" := @entry_without label_types 7]}
             (texts_of [("<x>", "X")]) in
  @impl_get_output label_types label_module = None /\
  m_enabled (state (contents m)) = true /\
  m_router (state (contents m)) = m_router m.
Proof.
  intros m. split; [reflexivity|].
  destruct (@contents_frame label_types label_module label_markup m eq_refl)
    as (He & Hr & _).
  split; [exact He|exact Hr].
Defined.

(** X21 on ["a<x>"] where [<x>] fails: literal text was emitted, and
    [no_tag_built] is still set when the loop is left. *)
Lemma get_output_flags_at_exit_witness :
  let m := label_state "a<x>" 1 ∅ (texts_of []) in
  let l' := {| no_tag_built := true; fake_no_tag_built := false;
               tag_built := false; value' := "" |} in
  result (loop_run m) = Some l' /\
  trace (loop_run m) = [EvNode "a"; EvBuild "<x>" false] /\
  no_tag_built l' = negb (has_built (trace (loop_run m))).
Proof.
  intros m l'.
  assert (H : result (loop_run m) = Some l') by (vm_compute; reflexivity).
  split; [exact H|]. split; [vm_compute; reflexivity|].
  exact (proj2 (get_output_flags_at_exit m l' H)).
Defined.

End ConcreteMore.

(** * The content of the builder through a render *)

Module ScanFacts.
Import Str StrFacts.

Lemma length_app (s1 s2 : string) :
  String.length (s1 +:+ s2) = String.length s1 + String.length s2.
Proof.
  induction s1 as [|a s1 IH]; [reflexivity|].
  rewrite append_cons. cbn [String.length]. rewrite IH. reflexivity.
Qed.

Lemma take_app_length (s1 s2 : string) :
  take (String.length s1) (s1 +:+ s2) = s1.
Proof.
  induction s1 as [|a s1 IH]; [destruct s2; reflexivity|].
  rewrite append_cons. cbn [String.length take]. rewrite IH. reflexivity.
Qed.

Lemma erase_app_length (s1 s2 : string) :
  erase (String.length s1) (s1 +:+ s2) = s2.
Proof.
  induction s1 as [|a s1 IH]; [apply erase_0|].
  rewrite append_cons. cbn [String.length erase]. exact IH.
Qed.

(** What [find] finds within a prefix does not depend on what follows the
    prefix. *)
Lemma find_prefix (c : ascii) (s2 : string) (s1 : string) :
  forall pos i, find c pos (s1 +:+ s2) = Some i -> i < String.length s1 ->
    find c pos s1 = Some i.
Proof.
  induction s1 as [|a s1 IH]; intros pos i H Hi.
  - cbn [String.length] in Hi. lia.
  - rewrite append_cons in H. cbn [find] in H |- *. cbn [String.length] in Hi.
    destruct pos as [|p].
    + destruct (Ascii.eqb a c); [exact H|].
      destruct (find c 0 (s1 +:+ s2)) as [j|] eqn:E; [|discriminate].
      injection H as <-. rewrite (IH 0 j E); [reflexivity|lia].
    + destruct (find c p (s1 +:+ s2)) as [j|] eqn:E; [|discriminate].
      injection H as <-. rewrite (IH p j E); [reflexivity|lia].
Qed.

Lemma find_app (c : ascii) (s2 : string) (s1 : string) :
  forall pos i, find c pos s1 = Some i -> find c pos (s1 +:+ s2) = Some i.
Proof.
  induction s1 as [|a s1 IH]; intros pos i H; [discriminate|].
  rewrite append_cons. cbn [find] in H |- *.
  destruct pos as [|p].
  - destruct (Ascii.eqb a c); [exact H|].
    destruct (find c 0 s1) as [j|] eqn:E; [|discriminate].
    rewrite (IH 0 j E). exact H.
  - destruct (find c p s1) as [j|] eqn:E; [|discriminate].
    rewrite (IH p j E). exact H.
Qed.

(** What [find] finds at [i] it finds in the first [S i] characters,
    whatever follows them. *)
Lemma find_take (c : ascii) (s s3 : string) (pos i : nat) :
  find c pos s = Some i -> find c pos (take (S i) s +:+ s3) = Some i.
Proof.
  intros H. apply find_app.
  destruct (find_bounds _ _ _ _ H) as [_ Hlt].
  apply (find_prefix c (erase (S i) s)).
  - rewrite UnmatchedFacts.take_erase. exact H.
  - rewrite length_take. lia.
Qed.

End ScanFacts.

Section Content.

Context {T : ImplTypes} {I : ModuleImpl T} {K : Markup}.





(** The loop leaves of the template what scanning it for spans leaves. *)
Lemma render_loop_scan (fmt : format) (mingap : nat) :
  forall fuel l m,
    fake_no_tag_built l = false ->
    String.length (value' l) < fuel ->
    forall fuel', String.length (value' l) < fuel' ->
      exists l',
        result (render_loop fuel fmt mingap l m) = Some l' /\
        value' l' = scan_rest fuel' (value' l).
Proof.
  apply (render_loop_ind fmt mingap
    (fun l m r => forall fuel', String.length (value' l) < fuel' ->
       exists l', result r = Some l' /\
         value' l' = scan_rest fuel' (value' l))).
  - intros l m _ Hx fuel' Hlt. destruct fuel' as [|fuel']; [lia|].
    exists l. split; [reflexivity|]. cbn [scan_rest]. rewrite Hx. reflexivity.
  - intros l m start end_ r3 Hf Hs He r1 tag r2 IH fuel' Hlt.
    destruct fuel' as [|fuel']; [lia|].
    destruct (next_locals_run fmt mingap start end_ l m Hf Hs He)
      as (_ & Hv & Hlen).
    destruct (IH fuel') as (l' & Hr & Hl'); [lia|].
    exists l'. split; [exact Hr|].
    cbn [scan_rest]. unfold next_span. rewrite Hs, He, <- Hv. exact Hl'.
Qed.

End Content.

(** ** The spacer of a failed tag *)

Section SpacerRemoval.

Context {T : ImplTypes} {I : ModuleImpl T} {K : Markup}.


End SpacerRemoval.

(** ** A ['<'] that no ['>'] follows *)

Section UnmatchedOpen.

Context {T : ImplTypes} {I : ModuleImpl T} {K : Markup}.

(** A span found in a text is found in the text up to its end, whatever
    follows. *)
Lemma next_span_take (v s3 : string) (start end_ : nat) :
  Str.find "<" 0 v = Some start ->
  Str.find ">" start v = Some end_ ->
  next_span (Str.take (S end_) v +:+ s3) = Some (start, end_).
Proof.
  intros Hs He.
  destruct (StrFacts.find_bounds _ _ _ _ He) as [Hle _].
  unfold next_span.
  assert (Hs' : Str.find "<" 0 (Str.take (S end_) v +:+ s3) = Some start).
  { apply ScanFacts.find_app.
    apply (ScanFacts.find_prefix "<" (Str.erase (S end_) v)).
    - rewrite UnmatchedFacts.take_erase. exact Hs.
    - destruct (StrFacts.find_bounds _ _ _ _ He) as [_ Hlt].
      rewrite StrFacts.length_take. lia. }
  rewrite Hs', (ScanFacts.find_take ">" v s3 start end_ He). reflexivity.
Qed.

(** The loop never consumes a ['<'] after which no ['>'] comes: it is
    left with that ['<'], what follows it, and the literal text just
    before it, and what it has consumed is made of whole spans. *)
Lemma render_loop_scanned (fmt : format) (mingap : nat) (post : string) :
  Str.lacks ">" post = true ->
  forall fuel l m,
    fake_no_tag_built l = false ->
    String.length (value' l) < fuel ->
    forall pre, value' l = pre +:+ String "<" post ->
      exists l' consumed lit,
        result (render_loop fuel fmt mingap l m) = Some l' /\
        pre = consumed +:+ lit /\
        value' l' = lit +:+ String "<" post /\
        forall fuel', String.length consumed < fuel' ->
          scan_rest fuel' consumed = EmptyString.
Proof.
  intros Hpost.
  apply (render_loop_ind fmt mingap
    (fun l m r => forall pre, value' l = pre +:+ String "<" post ->
       exists l' consumed lit,
         result r = Some l' /\ pre = consumed +:+ lit /\
         value' l' = lit +:+ String "<" post /\
         forall fuel', String.length consumed < fuel' ->
           scan_rest fuel' consumed = EmptyString)).
  - intros l m _ _ pre Hv. exists l, EmptyString, pre.
    split; [reflexivity|]. split; [reflexivity|]. split; [exact Hv|].
    intros [|fuel'] _; reflexivity.
  - intros l m start end_ r3 Hf Hs He r1 tag r2 IH pre Hv.
    destruct (next_locals_run fmt mingap start end_ l m Hf Hs He)
      as (_ & Hv3 & _).
    assert (Hend : end_ < String.length pre).
    { rewrite Hv in He.
      apply (UnmatchedFacts.find_in_prefix ">" (String "<" post) pre) in He;
        [exact He|].
      cbn [Str.lacks]. rewrite Hpost. reflexivity. }
    assert (Hp : Str.take (S end_) (value' l) = Str.take (S end_) pre).
    { rewrite Hv.
      rewrite <- (UnmatchedFacts.take_erase pre (S end_)) at 1.
      rewrite StrFacts.append_assoc.
      replace (S end_) with (String.length (Str.take (S end_) pre)) at 1
        by (rewrite StrFacts.length_take; lia).
      apply ScanFacts.take_app_length. }
    rewrite Hv, UnmatchedFacts.erase_app in Hv3 by lia.
    destruct (IH _ Hv3) as (l' & consumed & lit & Hr & Hpre & Hl' & Hsc).
    exists l', (Str.take (S end_) pre +:+ consumed), lit.
    split; [exact Hr|]. split; [|split; [exact Hl'|]].
    + rewrite StrFacts.append_assoc, <- Hpre.
      symmetry. apply UnmatchedFacts.take_erase.
    + intros fuel' Hlt.
      rewrite ScanFacts.length_app, StrFacts.length_take in Hlt.
      destruct fuel' as [|fuel']; [lia|].
      cbn [scan_rest]. rewrite <- Hp.
      rewrite (next_span_take (value' l) consumed start end_ Hs He).
      rewrite Hp.
      replace (S end_) with (String.length (Str.take (S end_) pre)) at 1
        by (rewrite StrFacts.length_take; lia).
      rewrite ScanFacts.erase_app_length.
      apply Hsc. lia.
Qed.

(** C10.  For every template that holds a ['<'] with no ['>'] after it,
    the render loop terminates (within its fuel, and with the same result
    for any larger fuel).  It is left with what scanning the template for
    tag spans leaves: a rest in which no further span is found, which
    starts in the text before that ['<'], after the last span scanned, and
    holds the unmatched ['<'] and all that follows it.  What lies before
    the rest is made of whole spans, every tag span of the template has
    been handed to [build] by then, and the rest is appended to the output
    as it is, as the last text of the render. *)
Theorem unmatched_open_is_trailing_text (m : module) (pre post : string) :
  value (selected_format m) = pre +:+ "<" +:+ post ->
  Str.lacks ">" post = true ->
  let v := value (selected_format m) in
  let rest := unscanned v in
  let scanned := String.length v - String.length rest in
  let consumed := Str.take scanned pre in
  let lit := Str.erase scanned pre in
  exists l',
    result (loop_run m) = Some l' /\
    (forall fuel, render_fuel v <= fuel ->
       render_loop fuel (selected_format m)
         (Nat.max 1 (spacing (selected_format m)))
         (initial_locals (selected_format m)) m = loop_run m) /\
    value' l' = rest /\
    next_span rest = None /\
    scanned <= String.length pre /\
    pre = consumed +:+ lit /\
    rest = lit +:+ "<" +:+ post /\
    unscanned consumed = EmptyString /\
    built_tags (trace (loop_run m)) = tags v /\
    trace (get_output m)
      = EvLock [m_buildlock] :: EvCall GetFormat :: trace (loop_run m)
          ++ [EvAppend rest; EvFlush;
              EvDecorate (m_builder (state (loop_run m)) +:+ rest);
              EvUnlock m_buildlock].
Proof.
  intros Hv Hpost v rest scanned consumed lit.
  assert (Hfuel : String.length (value' (initial_locals (selected_format m)))
                  < render_fuel (value (selected_format m)))
    by (unfold render_fuel, initial_locals; cbn [value']; lia).
  destruct (render_loop_scanned (selected_format m)
              (Nat.max 1 (spacing (selected_format m))) post Hpost
              (render_fuel (value (selected_format m)))
              (initial_locals (selected_format m)) m eq_refl Hfuel pre Hv)
    as (l' & c & lt & Hr & Hpre & Hl' & Hsc).
  destruct (render_loop_scan (selected_format m)
              (Nat.max 1 (spacing (selected_format m)))
              (render_fuel (value (selected_format m)))
              (initial_locals (selected_format m)) m eq_refl Hfuel
              (render_fuel (value (selected_format m))) Hfuel)
    as (l1 & Hr1 & Hl1).
  fold (loop_run m) in Hr, Hr1. rewrite Hr in Hr1. injection Hr1 as <-.
  change (value' l' = rest) in Hl1.
  destruct (get_output_run m) as (l2 & Hr2 & Hx & _ & E).
  rewrite Hr in Hr2. injection Hr2 as <-.
  assert (Erest : rest = lt +:+ String "<" post) by (rewrite <- Hl1; exact Hl').
  assert (Ev : v = c +:+ rest).
  { unfold v. rewrite Hv, Hpre, Erest. apply StrFacts.append_assoc. }
  assert (Esc : scanned = String.length c).
  { unfold scanned. rewrite Ev, ScanFacts.length_app. lia. }
  assert (Ec : consumed = c).
  { unfold consumed. rewrite Esc, Hpre. apply ScanFacts.take_app_length. }
  assert (El : lit = lt).
  { unfold lit. rewrite Esc, Hpre. apply ScanFacts.erase_app_length. }
  exists l'.
  split; [exact Hr|]. split.
  { intros fuel Hle.
    apply (render_loop_enough (selected_format m) _
             (initial_locals (selected_format m)) m eq_refl fuel Hle). }
  split; [exact Hl1|].
  split; [rewrite <- Hl1; exact Hx|].
  split; [rewrite Esc, Hpre, ScanFacts.length_app; apply Nat.le_add_r|].
  split; [rewrite Ec, El; exact Hpre|].
  split; [rewrite El; exact Erest|].
  split; [rewrite Ec; apply Hsc; apply Nat.lt_succ_diag_r|].
  split.
  { unfold loop_run, tags.
    apply (render_loop_tags (selected_format m) _
             (render_fuel (value (selected_format m)))
             (initial_locals (selected_format m)) m eq_refl Hfuel
             (render_fuel (value (selected_format m))) Hfuel). }
  cbv zeta in E. rewrite E. unfold trace at 1. cbn [snd app].
  rewrite Hl1, Erest. destruct lt; reflexivity.
Qed.

End UnmatchedOpen.
(** ** Every span is built *)

Section EverySpan.

Context {T : ImplTypes} {I : ModuleImpl T} {K : Markup}.

(** X22.  No span is skipped, and no tag but a well-formed one is built.
    Whenever the condition of the [while] finds a span, the tag that the
    body cuts out of the template is not empty, starts with ['<'] and ends
    with ['>'], so the branch for an empty tag and the [else] branch for a
    tag that is not delimited are never taken: [build] is called for every
    span that scanning the template finds, in order, and every tag handed
    to it runs from a ['<'] to a ['>'] and has two characters at least. *)
Theorem get_output_builds_shaped_tags (m : module) :
  built_tags (trace (get_output m)) = tags (value (selected_format m)) /\
  Forall tag_shaped (trace (get_output m)) /\
  forall (v : string) (start end_ : nat),
    Str.find "<" 0 v = Some start ->
    Str.find ">" start v = Some end_ ->
    let p := if Nat.ltb 0 start
             then (Str.erase start v, 0, end_ - start)
             else (v, start, end_) in
    let tag := Str.substr (snd (fst p)) (snd p + 1) (fst (fst p)) in
    Str.empty tag = false /\
    Str.is_char "<" (Str.front tag) && Str.is_char ">" (Str.back tag) = true.
Proof.
  assert (Hfuel : String.length (value' (initial_locals (selected_format m)))
                  < render_fuel (value (selected_format m)))
    by (unfold render_fuel, initial_locals; cbn [value']; lia).
  destruct (get_output_run m) as (l' & _ & _ & _ & E).
  cbv zeta in E. rewrite E. clear E.
  split; [|split]; try (unfold trace at 1; cbn [snd]).
  - change (?a :: ?b :: ?l ++ ?t) with ([a; b] ++ l ++ t).
    rewrite !built_tags_app.
    unfold loop_run, tags.
    rewrite (render_loop_tags (selected_format m) _
               (render_fuel (value (selected_format m)))
               (initial_locals (selected_format m)) m eq_refl Hfuel
               (render_fuel (value (selected_format m))) Hfuel).
    cbn [initial_locals value'].
    destruct (Str.empty (value' l')); cbn; rewrite app_nil_r; reflexivity.
  - constructor; [exact Logic.I|]. constructor; [exact Logic.I|].
    apply Forall_app. split.
    + apply (render_loop_tag_shape (selected_format m) _
               (render_fuel (value (selected_format m)))
               (initial_locals (selected_format m)) m eq_refl Hfuel).
    + destruct (Str.empty (value' l')); repeat constructor.
  - intros v start end_ Hs He p tag.
    destruct (TagFacts.tag_shape _ _ _ Hs He) as (_ & Hne & Hfront & Hback).
    assert (Et : tag = Str.take (end_ - start + 1) (Str.erase start v)).
    { unfold tag, p, Str.substr. destruct start as [|n].
      - change (Nat.ltb 0 0) with false. cbn [fst snd].
        rewrite !StrFacts.erase_0, Nat.sub_0_r. reflexivity.
      - change (Nat.ltb 0 (S n)) with true. cbn [fst snd].
        rewrite StrFacts.erase_0. reflexivity. }
    rewrite Et, Hne, Hfront, Hback. split; reflexivity.
Qed.

End EverySpan.

(** ** The content and the scan on concrete modules *)

Section ConcreteContent.


(** C10 on ["<a> x <b"]: [<a>] is scanned and built, and the loop is left
    with [" x <b"], which is appended. *)
Lemma unmatched_open_is_trailing_text_witness :
  let m := label_state "<a> x <b" 1 ∅ (texts_of [("<a>", "X")]) in
  value (selected_format m) = "<a> x " +:+ "<" +:+ "b" /\
  Str.lacks ">" "b" = true /\
  unscanned "<a> x <b" = " x <b" /\
  exists l',
    result (loop_run m) = Some l' /\
    value' l' = " x <b" /\
    next_span " x <b" = None /\
    "<a> x " = "<a>" +:+ " x " /\
    " x <b" = " x " +:+ "<" +:+ "b" /\
    unscanned "<a>" = "" /\
    built_tags (trace (loop_run m)) = ["<a>"] /\
    trace (get_output m)
      = locked ++ [EvBuild "<a>" true; EvAppend " x <b"; EvFlush;
                   EvDecorate "X x <b"; EvUnlock m_buildlock].
Proof.
  intros m. split; [reflexivity|]. split; [reflexivity|].
  split; [reflexivity|].
  destruct (unmatched_open_is_trailing_text m "<a> x " "b" eq_refl eq_refl)
    as (l' & Hr & _ & Hv & Hx & _ & Hpre & Hrest & Hsc & Hb & Ht).
  exists l'.
  split; [exact Hr|]. split; [exact Hv|]. split; [exact Hx|].
  split; [exact Hpre|]. split; [exact Hrest|]. split; [exact Hsc|].
  split; [exact Hb|].
  rewrite Ht. reflexivity.
Defined.

(** X22 on ["a<x>"]: the one span is built, and the tag cut out of the
    template after its text passes both tests. *)
Lemma get_output_builds_shaped_tags_witness :
  let m := label_state "a<x>" 1 ∅ (texts_of [("<x>", "X")]) in
  built_tags (trace (get_output m)) = ["<x>"] /\
  Str.find "<" 0 "a<x>" = Some 1 /\
  Str.find ">" 1 "a<x>" = Some 3 /\
  Str.empty (Str.substr 0 (3 - 1 + 1) (Str.erase 1 "a<x>")) = false /\
  Str.is_char "<" (Str.front "<x>") && Str.is_char ">" (Str.back "<x>") = true.
Proof.
  intros m.
  destruct (get_output_builds_shaped_tags m) as (H1 & _ & H3).
  split; [exact H1|]. split; [reflexivity|]. split; [reflexivity|].
  exact (H3 "a<x>" 1 3 eq_refl eq_refl).
Defined.

End ConcreteContent.
